(** * Agent orchestration demos (AutoGen core and Semantic Kernel): a shallow embedding

    The repository wires a handful of LLM "agents" into canned interaction
    patterns.  The agents' message handlers (src/autogen/*.py) are embedded
    below as computations in a small state-and-exception monad whose state
    records every effect a handler can have: calls to the chat completion
    client, messages published on a topic, lines printed, writes to shared
    Python dictionaries.  The orchestration configurations of
    src/semantic_kernel/*.py are embedded as the data they construct. *)

From Stdlib Require Import Ascii String Floats.
From stdpp Require Import base option list gmap strings.

Local Open Scope string_scope.
#[local] Set Warnings "-inexact-float,-register-all".

(** ** Python strings *)

Module PyString.

(** [sub in s] on [str]: [sub] occurs in [s] as a contiguous run. *)
Fixpoint str_in (sub s : string) : bool :=
  if String.prefix sub s then true
  else match s with
       | EmptyString => false
       | String _ rest => str_in sub rest
       end.

(** [s.replace(old, new)] for one-character [old] and [new]. *)
Fixpoint replace_char (old new : ascii) (s : string) : string :=
  match s with
  | EmptyString => EmptyString
  | String c rest =>
      String (if Ascii.eqb c old then new else c) (replace_char old new rest)
  end.

(** [c * n] for a one-character string [c]. *)
Fixpoint repeat_char (c : ascii) (n : nat) : string :=
  match n with
  | O => EmptyString
  | S k => String c (repeat_char c k)
  end.

Definition nl : string := String (ascii_of_nat 10) EmptyString.

(** Case mapping restricted to the ASCII letters; bytes outside [a-z] /
    [A-Z] are kept.  Used to run the handlers on concrete inputs. *)
Definition is_lower (c : ascii) : bool :=
  (97 <=? nat_of_ascii c)%nat && (nat_of_ascii c <=? 122)%nat.
Definition is_upper (c : ascii) : bool :=
  (65 <=? nat_of_ascii c)%nat && (nat_of_ascii c <=? 90)%nat.
Definition to_upper (c : ascii) : ascii :=
  if is_lower c then ascii_of_nat (nat_of_ascii c - 32) else c.
Definition to_lower (c : ascii) : ascii :=
  if is_upper c then ascii_of_nat (nat_of_ascii c + 32) else c.

Fixpoint map_chars (f : ascii -> ascii) (s : string) : string :=
  match s with
  | EmptyString => EmptyString
  | String c rest => String (f c) (map_chars f rest)
  end.

Definition ascii_upper : string -> string := map_chars to_upper.
Definition ascii_lower : string -> string := map_chars to_lower.

(** [str.title()] on ASCII text: the first letter of every run of letters is
    upper-cased, the others lower-cased. *)
Fixpoint title_from (in_word : bool) (s : string) : string :=
  match s with
  | EmptyString => EmptyString
  | String c rest =>
      let letter := is_lower c || is_upper c in
      String (if in_word then to_lower c else to_upper c) (title_from letter rest)
  end.
Definition ascii_title : string -> string := title_from false.

End PyString.
Import PyString.

(** ** Python values *)

(** The values that flow through the scripts' [Dict[str, Any]] payloads and
    through [result.content].  A [dict] keeps its insertion order. *)
Inductive pyval : Type :=
  | PyNone
  | PyBool (b : bool)
  | PyInt (z : Z)
  | PyStr (s : string)
  | PyList (l : list pyval)
  | PyDict (d : list (string * pyval)).

Abbreviation pydict := (list (string * pyval)).

(** [d[k]]: the value, or nothing ([KeyError]). *)
Fixpoint assoc_get {V} (d : list (string * V)) (k : string) : option V :=
  match d with
  | [] => None
  | (k', v) :: rest => if String.eqb k' k then Some v else assoc_get rest k
  end.

(** [d[k] = v]: overwrite in place when the key is present, append
    otherwise. *)
Fixpoint assoc_set {V} (d : list (string * V)) (k : string) (v : V) : list (string * V) :=
  match d with
  | [] => [(k, v)]
  | (k', v') :: rest =>
      if String.eqb k' k then (k', v) :: rest else (k', v') :: assoc_set rest k v
  end.

Definition dict_get : pydict -> string -> option pyval := assoc_get.
Definition dict_set : pydict -> string -> pyval -> pydict := assoc_set.

(** The interpreter's built-ins the scripts call and whose full definition
    (Unicode case mapping, [repr]) lies outside the repository. *)
Class PyBuiltins := {
  str_upper : string -> string;   (* str.upper *)
  str_lower : string -> string;   (* str.lower *)
  str_title : string -> string;   (* str.title *)
  py_repr : pyval -> string       (* repr *)
}.

(** [str(v)] and [f"{v}"]: a [str] is itself, anything else prints as its
    [repr]. *)
Definition py_str `{PyBuiltins} (v : pyval) : string :=
  match v with
  | PyStr s => s
  | _ => py_repr v
  end.

(** An executable instance: ASCII case mapping, and a [repr] that quotes
    with single quotes and escapes nothing (exact on text without quotes,
    backslashes and control characters). *)
Module AsciiPy.

Fixpoint join (sep : string) (l : list string) : string :=
  match l with
  | [] => ""
  | [x] => x
  | x :: rest => x ++ sep ++ join sep rest
  end.

Definition quote (s : string) : string := "'" ++ s ++ "'".

Fixpoint digits (fuel : nat) (n : N) (acc : string) : string :=
  match fuel with
  | O => acc
  | S f =>
      let acc' := String (ascii_of_N (48 + n mod 10)) acc in
      if (n <? 10)%N then acc' else digits f (n / 10)%N acc'
  end.

Definition repr_int (z : Z) : string :=
  let n := Z.to_N (Z.abs z) in
  (if (z <? 0)%Z then "-" else "") ++ digits (S (N.to_nat (N.log2 n))) n "".

Fixpoint repr (v : pyval) : string :=
  match v with
  | PyNone => "None"
  | PyBool true => "True"
  | PyBool false => "False"
  | PyInt z => repr_int z
  | PyStr s => quote s
  | PyList l => "[" ++ join ", " (map repr l) ++ "]"
  | PyDict d =>
      "{" ++ join ", " (map (fun kv => quote (fst kv) ++ ": " ++ repr (snd kv)) d) ++ "}"
  end.

#[export] Instance builtins : PyBuiltins :=
  {| str_upper := ascii_upper;
     str_lower := ascii_lower;
     str_title := ascii_title;
     py_repr := repr |}.

End AsciiPy.

(** ** Effects of a message handler *)

(** Exceptions a handler can leave through. *)
Inductive exn : Type :=
  | ServiceError (reason : string)   (* raised by the completion client *)
  | KeyError (key : string)
  | AssertionError.

Inductive res (A : Type) : Type :=
  | Ok (a : A)
  | Raise (e : exn).
Arguments Ok {A} a.
Arguments Raise {A} e.

(** autogen_core.models: the turns handed to the client, and its answer.
    [content] of a [CreateResult] is a [str] or a list of function calls.
    Building a turn is taken to succeed; the framework's own check of the
    type of [content] is not part of the repository, and the statements
    about a turn built from a stored value are made for text. *)
Inductive LLMMessage : Type :=
  | SystemMessage (content : string)
  | UserMessage (content : pyval) (source : string).

Module CreateResult.
Record t := { content : pyval }.
End CreateResult.

Record TopicId := { topic_type : string; topic_source : string }.
Record AgentId := { agent_type : string; agent_key : string }.

#[global] Instance AgentId_eq_dec : EqDecision AgentId.
Proof. solve_decision. Defined.

Abbreviation loc := positive.

Section Effects.

(** [CS] is the state of the completion service, [Msg] the union of the
    dataclasses a script publishes. *)
Context {CS Msg : Type}.

(** The chat completion client: a black box that answers a list of turns
    or raises, and may change from one call to the next. *)
Definition Client : Type := CS -> list LLMMessage -> CS * res CreateResult.t.

Record Envelope := {
  env_sender : option AgentId;
  env_topic : TopicId;
  env_message : Msg
}.

Record World := {
  svc : CS;                           (* the completion service *)
  calls : list (list LLMMessage);     (* every [client.create], oldest first *)
  queue : list Envelope;              (* published, not yet delivered *)
  published : list Envelope;          (* every [publish_message], oldest first *)
  stdout : list string;               (* every [print], oldest first *)
  heap : gmap loc pydict;             (* the dicts reachable from messages *)
  errlog : list exn                   (* exceptions the runtime logged *)
}.

Definition M (A : Type) : Type := World -> World * res A.

Definition ret {A} (a : A) : M A := fun w => (w, Ok a).
Definition raise {A} (e : exn) : M A := fun w => (w, Raise e).
Definition bind {A B} (m : M A) (k : A -> M B) : M B :=
  fun w => match m w with
           | (w', Ok a) => k a w'
           | (w', Raise e) => (w', Raise e)
           end.

Definition from_option {A} (e : exn) (o : option A) : M A :=
  match o with
  | Some a => ret a
  | None => raise e
  end.

(** [await client.create(messages=...)]. *)
Definition create (client : Client) (messages : list LLMMessage) : M CreateResult.t :=
  fun w =>
    let (s', r) := client (svc w) messages in
    ({| svc := s'; calls := calls w ++ [messages]; queue := queue w;
        published := published w; stdout := stdout w; heap := heap w;
        errlog := errlog w |}, r).

(** [await self.publish_message(message, topic_id=...)]. *)
Definition publish_message (sender : option AgentId) (message : Msg) (topic : TopicId)
  : M unit :=
  fun w =>
    let e := {| env_sender := sender; env_topic := topic; env_message := message |} in
    ({| svc := svc w; calls := calls w; queue := queue w ++ [e];
        published := published w ++ [e]; stdout := stdout w; heap := heap w;
        errlog := errlog w |}, Ok tt).

(** [print(text)]. *)
Definition print (text : string) : M unit :=
  fun w =>
    ({| svc := svc w; calls := calls w; queue := queue w;
        published := published w; stdout := stdout w ++ [text]; heap := heap w;
        errlog := errlog w |}, Ok tt).

(** A dict literal: a new object. *)
Definition new_dict (d : pydict) : M loc :=
  fun w =>
    let l := fresh (dom (heap w)) in
    ({| svc := svc w; calls := calls w; queue := queue w;
        published := published w; stdout := stdout w; heap := <[l := d]> (heap w);
        errlog := errlog w |}, Ok l).

(** Reading the dict behind a reference.  Every reference a script holds
    was allocated; a location outside the heap reads as the empty dict. *)
Definition deref (l : loc) : M pydict :=
  fun w => (w, Ok (default [] (heap w !! l))).

(** [d[key] = value] on the dict behind a reference. *)
Definition setitem (l : loc) (key : string) (value : pyval) : M unit :=
  fun w =>
    let d := default [] (heap w !! l) in
    ({| svc := svc w; calls := calls w; queue := queue w;
        published := published w; stdout := stdout w;
        heap := <[l := dict_set d key value]> (heap w);
        errlog := errlog w |}, Ok tt).

(** ** The single-threaded runtime

    The runtime belongs to the framework; the scripts rely on this much of
    it: a message published on a topic is handed to every registered agent
    type subscribed to the topic's type, except the agent that sent it; the
    agent instance is keyed by the topic's source; an agent without a
    handler for the message's class ignores it; an exception leaving a
    handler is logged and dropped. *)

Record Registration := {
  reg_type : string;                                 (* the registered agent type *)
  reg_topic : string;                                (* the subscribed topic type *)
  reg_handler : AgentId -> Msg -> option (M unit)    (* dispatch on the class *)
}.

Definition instance_of (r : Registration) (e : Envelope) : AgentId :=
  {| agent_type := reg_type r; agent_key := topic_source (env_topic e) |}.

Definition receives (e : Envelope) (r : Registration) : bool :=
  String.eqb (reg_topic r) (topic_type (env_topic e))
  && negb (bool_decide (env_sender e = Some (instance_of r e))).

(** Nobody is subscribed to the topic of [e]. *)
Definition no_receiver (regs : list Registration) (e : Envelope) : Prop :=
  filter (fun r => receives e r = true) regs = [].

Definition log_error (e : exn) (w : World) : World :=
  {| svc := svc w; calls := calls w; queue := queue w;
     published := published w; stdout := stdout w; heap := heap w;
     errlog := errlog w ++ [e] |}.

Definition deliver (e : Envelope) (w : World) (r : Registration) : World :=
  match reg_handler r (instance_of r e) (env_message e) with
  | None => w
  | Some h =>
      match h w with
      | (w', Ok _) => w'
      | (w', Raise x) => log_error x w'
      end
  end.

Definition pop (w : World) : option (Envelope * World) :=
  match queue w with
  | [] => None
  | e :: q =>
      Some (e, {| svc := svc w; calls := calls w; queue := q;
                  published := published w; stdout := stdout w; heap := heap w;
                  errlog := errlog w |})
  end.

Definition process_next (regs : list Registration) (w : World) : option World :=
  match pop w with
  | None => None
  | Some (e, w') => Some (fold_left (deliver e) (filter (fun r => receives e r = true) regs) w')
  end.

(** [await runtime.stop_when_idle()]: deliver until the queue is empty.
    [None] when [fuel] deliveries did not empty it. *)
Fixpoint stop_when_idle (fuel : nat) (regs : list Registration) (w : World)
  : option World :=
  match process_next regs w with
  | None => Some w
  | Some w' =>
      match fuel with
      | O => None
      | S f => stop_when_idle f regs w'
      end
  end.

(** How a handler uses the completion service on a run from [w]: one
    call, with the turns [prompt], whose failure is the handler's failure;
    or no call at all. *)
Definition calls_once_no_retry (client : Client) (prompt : list LLMMessage)
    (h : M unit) (w : World) : Prop :=
  calls (fst (h w)) = (calls w ++ [prompt])%list
  /\ forall x, snd (client (svc w) prompt) = Raise x -> snd (h w) = Raise x.

Definition never_calls (h : M unit) (w : World) : Prop :=
  calls (fst (h w)) = calls w.

(** The number of calls to the completion service a handler makes. *)
Definition invocations (h : M unit) (w : World) : nat :=
  length (calls (fst (h w))) - length (calls w).

Definition start (s : CS) (h : gmap loc pydict) : World :=
  {| svc := s; calls := []; queue := []; published := []; stdout := [];
     heap := h; errlog := [] |}.

End Effects.

Arguments Envelope : clear implicits.
Arguments World : clear implicits.
Arguments M : clear implicits.
Arguments Client : clear implicits.
Arguments Registration : clear implicits.

Declare Scope py_scope.
Delimit Scope py_scope with py.
Notation "x <~ c ;; k" := (bind c (fun x => k))
  (at level 100, c at next level, right associativity) : py_scope.
Notation "c ;;; k" := (bind c (fun _ => k))
  (at level 100, right associativity) : py_scope.

(** [DefaultTopicId()]: inside a handler its source is the key of the
    handling agent, outside (the script's seed message) it is "default". *)
Definition DefaultTopicId (self : option AgentId) : TopicId :=
  {| topic_type := "default";
     topic_source := match self with Some a => agent_key a | None => "default" end |}.

(** ** src/autogen/ag_handoff.py *)

Module AgHandoff.

Module InvestmentRequest.
Record t := { company : string; inquiry : string; request_id : string }.
End InvestmentRequest.

Module HandoffResponse.
Record t := { handler : string; content : pyval; request_id : string }.
End HandoffResponse.

Inductive Msg : Type :=
  | Request (m : InvestmentRequest.t)
  | Handoff (m : HandoffResponse.t).

Section Agents.

Context `{PyBuiltins} {CS : Type} (client : Client CS).

Local Open Scope py_scope.

Definition TriageAdvisor_system : LLMMessage :=
  SystemMessage "Route refund inquiries to 'refund' and investment questions to 'specialist'.".

Definition TriageAdvisor_prompt (message : InvestmentRequest.t) : list LLMMessage :=
  [TriageAdvisor_system;
   UserMessage (PyStr (InvestmentRequest.inquiry message)) "TriageAdvisor"].

Definition TriageAdvisor_on_request (self : AgentId) (message : InvestmentRequest.t)
  : M CS Msg unit :=
  result <~ create client (TriageAdvisor_prompt message) ;;
  let choice :=
    if str_in "invest" (str_lower (InvestmentRequest.inquiry message))
    then "specialist" else "refund" in
  publish_message (Some self)
    (Handoff {| HandoffResponse.handler := choice;
                HandoffResponse.content := CreateResult.content result;
                HandoffResponse.request_id := InvestmentRequest.request_id message |})
    (DefaultTopicId (Some self)).

Definition EquitySpecialist_system : LLMMessage :=
  SystemMessage "Provide detailed investment analysis.".

Definition EquitySpecialist_on_handoff (self : AgentId) (message : HandoffResponse.t)
  : M CS Msg unit :=
  if negb (String.eqb (HandoffResponse.handler message) "specialist") then ret tt
  else
    result <~ create client
      [EquitySpecialist_system;
       UserMessage (HandoffResponse.content message) "EquitySpecialist"] ;;
    print ("Equity Specialist report (" ++ HandoffResponse.request_id message ++ "):"
           ++ nl ++ py_str (CreateResult.content result)).

Definition HumanAdvisor_on_handoff (self : AgentId) (message : HandoffResponse.t)
  : M CS Msg unit :=
  if negb (String.eqb (HandoffResponse.handler message) "refund") then ret tt
  else
    print ("Human Advisor handling refund (" ++ HandoffResponse.request_id message ++ "):"
           ++ nl ++ py_str (HandoffResponse.content message)).

(** The three [register] calls; each class is a [@default_subscription]. *)
Definition TriageAdvisor : Registration CS Msg :=
  {| reg_type := "triage"; reg_topic := "default";
     reg_handler := fun self m =>
       match m with
       | Request r => Some (TriageAdvisor_on_request self r)
       | Handoff _ => None
       end |}.

Definition EquitySpecialist : Registration CS Msg :=
  {| reg_type := "specialist"; reg_topic := "default";
     reg_handler := fun self m =>
       match m with
       | Handoff r => Some (EquitySpecialist_on_handoff self r)
       | Request _ => None
       end |}.

Definition HumanAdvisor : Registration CS Msg :=
  {| reg_type := "human"; reg_topic := "default";
     reg_handler := fun self m =>
       match m with
       | Handoff r => Some (HumanAdvisor_on_handoff self r)
       | Request _ => None
       end |}.

Definition registered : list (Registration CS Msg) :=
  [TriageAdvisor; EquitySpecialist; HumanAdvisor].

(** [run_handoff_scenario], for any seed request. *)
Definition run_handoff (request : InvestmentRequest.t) (fuel : nat) (s : CS)
  : option (World CS Msg) :=
  let (w, _) := publish_message None (Request request) (DefaultTopicId None) (start s ∅) in
  stop_when_idle fuel registered w.

Definition seed_request : InvestmentRequest.t :=
  {| InvestmentRequest.company := "TechCorp";
     InvestmentRequest.inquiry := "I want to invest in stocks";
     InvestmentRequest.request_id := "HR-001" |}.

Definition run_handoff_scenario : nat -> CS -> option (World CS Msg) :=
  run_handoff seed_request.

(** A handler acted when it called the completion service or printed. *)
Definition acted (before after : World CS Msg) : Prop :=
  (length (calls before) < length (calls after)
   \/ length (stdout before) < length (stdout after))%nat.

End Agents.

End AgHandoff.

(** ** src/autogen/ag_concurrent.py *)

Module AgConcurrent.

Module InvestmentRequest.
Record t := { company : string; financial_data : pydict; request_id : string }.
End InvestmentRequest.

Module AnalysisResult.
Record t := {
  analyst_type : string;
  company : string;
  analysis : string;
  recommendation : string;
  confidence_score : float;
  request_id : string
}.
End AnalysisResult.

Inductive Msg : Type :=
  | Request (m : InvestmentRequest.t)
  | Result (m : AnalysisResult.t).

Definition RESULTS_TOPIC_TYPE : string := "analysis-results".
Definition results_topic_id : TopicId :=
  {| topic_type := RESULTS_TOPIC_TYPE; topic_source := "default" |}.

(** What [BaseAnalysisAgent.__init__] stores. *)
Record BaseAnalysisAgent := {
  agent_name : string;
  service_id : string;
  system_message : LLMMessage
}.

Definition FundamentalAnalyst : BaseAnalysisAgent :=
  {| agent_name := "Fundamental Analysis Agent";
     service_id := "fundamental_analyst";
     system_message := SystemMessage
       ("You are a fundamental analyst specializing in company valuation. "
        ++ "Analyze financial statements, revenue growth, and market position. "
        ++ "Provide bullet-point findings and BUY/HOLD/SELL recommendation.") |}.

Definition TechnicalAnalyst : BaseAnalysisAgent :=
  {| agent_name := "Technical Analysis Agent";
     service_id := "technical_analyst";
     system_message := SystemMessage
       ("You are a technical analyst specializing in price patterns and volume trends. "
        ++ "Assess moving averages, RSI, MACD. Provide bullet-point summary and recommendation.") |}.

Definition SentimentAnalyst : BaseAnalysisAgent :=
  {| agent_name := "Sentiment Analysis Agent";
     service_id := "sentiment_analyst";
     system_message := SystemMessage
       ("You are a sentiment analyst focusing on news and social media trends. "
        ++ "Evaluate sentiment, provide a score, and BUY/HOLD/SELL recommendation.") |}.

Section Agents.

Context `{PyBuiltins} {CS : Type} (client : Client CS).

Local Open Scope py_scope.

Definition analyze_prompt (agent : BaseAnalysisAgent) (message : InvestmentRequest.t)
  : list LLMMessage :=
  let prompt :=
    "Task for " ++ str_title (replace_char "_" " " (service_id agent)) ++ ":" ++ nl
    ++ "Company: " ++ InvestmentRequest.company message ++ nl
    ++ "Data: " ++ py_str (PyDict (InvestmentRequest.financial_data message)) in
  [system_message agent; UserMessage (PyStr prompt) "user"].

Definition analyze (agent : BaseAnalysisAgent) (self : AgentId)
    (message : InvestmentRequest.t) : M CS Msg unit :=
  result <~ create client (analyze_prompt agent message) ;;
  match CreateResult.content result with
  | PyStr content =>
      print (nl ++ repeat_char "-" 60 ++ nl ++ agent_type self ++ ":" ++ nl ++ content) ;;;
      (* simple recommendation extraction *)
      let '(recommendation, confidence) :=
        if str_in "BUY" (str_upper content) then ("BUY", 0.8%float)
        else if str_in "SELL" (str_upper content) then ("SELL", 0.75%float)
        else ("HOLD", 0.7%float) in
      let analysis :=
        {| AnalysisResult.analyst_type := service_id agent;
           AnalysisResult.company := InvestmentRequest.company message;
           AnalysisResult.analysis := content;
           AnalysisResult.recommendation := recommendation;
           AnalysisResult.confidence_score := confidence;
           AnalysisResult.request_id := InvestmentRequest.request_id message |} in
      publish_message (Some self) (Result analysis) results_topic_id
  | _ => raise AssertionError     (* assert isinstance(content, str) *)
  end.

(** [Class.register(runtime, type, ...)] of a [@default_subscription]
    class: only [InvestmentRequest] has a handler. *)
Definition register (agent : BaseAnalysisAgent) (type : string) : Registration CS Msg :=
  {| reg_type := type; reg_topic := "default";
     reg_handler := fun self m =>
       match m with
       | Request r => Some (analyze agent self r)
       | Result _ => None
       end |}.

(** Register 3 analysts. *)
Definition analysts : list (BaseAnalysisAgent * string) :=
  [(FundamentalAnalyst, "fundamental_analyst");
   (TechnicalAnalyst, "technical_analyst");
   (SentimentAnalyst, "sentiment_analyst")].

Definition investment_request : InvestmentRequest.t :=
  {| InvestmentRequest.company := "TechCorp Inc.";
     InvestmentRequest.financial_data :=
       [("revenue", PyStr "$10B");
        ("profit_margin", PyStr "15%");
        ("debt_to_equity", PyStr "0.3");
        ("price_data", PyStr "Upward trend, RSI: 45, Moving averages bullish");
        ("news_sentiment",
         PyStr "Recent product launch received positive reviews, strong Q3 earnings")];
     InvestmentRequest.request_id := "INV-2024-001" |}.

(** [run_concurrent_investment_analysis] for any seed request.  The
    runtime starts the three handlers together; [order] is the order in
    which they get to run, each handler having a single call to the
    completion service. *)
Definition run_concurrent (order : list (BaseAnalysisAgent * string))
    (request : InvestmentRequest.t) (fuel : nat) (s : CS) : option (World CS Msg) :=
  let (w, _) := publish_message None (Request request) (DefaultTopicId None) (start s ∅) in
  stop_when_idle fuel (map (fun a => register (fst a) (snd a)) order) w.

Definition run_concurrent_investment_analysis : nat -> CS -> option (World CS Msg) :=
  run_concurrent analysts investment_request.

(** The client always answers, and with text. *)
Definition answers_text : Prop :=
  forall s p, exists text,
    snd (client s p) = Ok {| CreateResult.content := PyStr text |}.

(** The [AnalysisResult]s among the published messages, oldest first. *)
Definition result_in (e : Envelope Msg) : option AnalysisResult.t :=
  match env_message e with
  | Result r => Some r
  | Request _ => None
  end.

Definition results_of (w : World CS Msg) : list AnalysisResult.t :=
  omap result_in (published w).

End Agents.

End AgConcurrent.

(** ** src/autogen/ag_groupchat.py *)

Module AgGroupchat.

Module GroupMessage.
Record t := { text : string }.
End GroupMessage.

Abbreviation Msg := GroupMessage.t.

Section Agents.

Context `{PyBuiltins} {CS : Type} (client : Client CS).

Local Open Scope py_scope.

Definition Moderator_on_proposal (self : AgentId) (message : GroupMessage.t)
  : M CS Msg unit :=
  let invite :=
    "Proposal: " ++ GroupMessage.text message ++ nl
    ++ "Fundamental and Risk analysts, please comment." in
  (* broadcast to both specialists *)
  publish_message (Some self) {| GroupMessage.text := invite |} (DefaultTopicId (Some self)).

Definition FundamentalAnalyst_on_discussion (self : AgentId) (message : GroupMessage.t)
  : M CS Msg unit :=
  resp <~ create client
    [SystemMessage "Provide a brief fundamental analysis.";
     UserMessage (PyStr (GroupMessage.text message)) "FundamentalAnalyst"] ;;
  print ("FundamentalAnalyst:" ++ " " ++ py_str (CreateResult.content resp)).

Definition RiskManager_on_discussion (self : AgentId) (message : GroupMessage.t)
  : M CS Msg unit :=
  resp <~ create client
    [SystemMessage "Provide a brief risk assessment.";
     UserMessage (PyStr (GroupMessage.text message)) "RiskManager"] ;;
  print ("RiskManager:" ++ " " ++ py_str (CreateResult.content resp)).

(** register three agents on the same topic *)
Definition registered : list (Registration CS Msg) :=
  [ {| reg_type := "moderator"; reg_topic := "default";
       reg_handler := fun self m => Some (Moderator_on_proposal self m) |};
    {| reg_type := "fundamental"; reg_topic := "default";
       reg_handler := fun self m => Some (FundamentalAnalyst_on_discussion self m) |};
    {| reg_type := "risk"; reg_topic := "default";
       reg_handler := fun self m => Some (RiskManager_on_discussion self m) |} ].

(** [main]: kick off group chat. *)
Definition main (fuel : nat) (s : CS) : option (World CS Msg) :=
  let (w, _) :=
    publish_message None {| GroupMessage.text := "Should we invest in TechCorp Inc.?" |}
      (DefaultTopicId None) (start s ∅) in
  stop_when_idle fuel registered w.

End Agents.

End AgGroupchat.

(** ** src/autogen/ag_sequential.py *)

Module AgSequential.

(** [data] is a reference: the handlers write into the dict they are
    given and pass the same task object on. *)
Module InvestmentTask.
Record t := { company : string; data : loc }.
End InvestmentTask.

Abbreviation Msg := InvestmentTask.t.

Section Agents.

Context `{PyBuiltins} {CS : Type} (client : Client CS).

Local Open Scope py_scope.

Definition DataCollector_system : LLMMessage :=
  SystemMessage "Gather and validate financial data.".
Definition FundamentalAnalyst_system : LLMMessage :=
  SystemMessage "Perform fundamental analysis.".
Definition ReportGenerator_system : LLMMessage :=
  SystemMessage "Produce the final investment report.".

(** [message.data[key]] *)
Definition getitem (l : loc) (key : string) : M CS Msg pyval :=
  d <~ deref l ;;
  from_option (KeyError key) (dict_get d key).

Definition DataCollector_prompt (data : pydict) : list LLMMessage :=
  [DataCollector_system; UserMessage (PyStr (py_str (PyDict data))) "DataCollector"].

Definition FundamentalAnalyst_prompt (collected : pyval) : list LLMMessage :=
  [FundamentalAnalyst_system; UserMessage collected "FundamentalAnalyst"].

Definition ReportGenerator_prompt (analysis : pyval) : list LLMMessage :=
  [ReportGenerator_system; UserMessage analysis "ReportGenerator"].

Definition DataCollectorAgent_on_collect (self : AgentId) (message : InvestmentTask.t)
  : M CS Msg unit :=
  d <~ deref (InvestmentTask.data message) ;;
  result <~ create client (DataCollector_prompt d) ;;
  setitem (InvestmentTask.data message) "collected" (CreateResult.content result) ;;;
  publish_message (Some self) message
    {| topic_type := "FundamentalAnalyst"; topic_source := agent_key self |}.

Definition FundamentalAnalystAgent_on_analyze (self : AgentId) (message : InvestmentTask.t)
  : M CS Msg unit :=
  collected <~ getitem (InvestmentTask.data message) "collected" ;;
  result <~ create client (FundamentalAnalyst_prompt collected) ;;
  setitem (InvestmentTask.data message) "analysis" (CreateResult.content result) ;;;
  publish_message (Some self) message
    {| topic_type := "ReportGenerator"; topic_source := agent_key self |}.

Definition ReportGeneratorAgent_on_report (self : AgentId) (message : InvestmentTask.t)
  : M CS Msg unit :=
  analysis <~ getitem (InvestmentTask.data message) "analysis" ;;
  result <~ create client (ReportGenerator_prompt analysis) ;;
  print (nl ++ "Final Report for " ++ InvestmentTask.company message ++ ":" ++ nl
         ++ py_str (CreateResult.content result)).

(** Each class is a [@type_subscription] on the topic type of its name
    and is registered under the same name. *)
Definition DataCollectorAgent : Registration CS Msg :=
  {| reg_type := "DataCollector"; reg_topic := "DataCollector";
     reg_handler := fun self m => Some (DataCollectorAgent_on_collect self m) |}.

Definition FundamentalAnalystAgent : Registration CS Msg :=
  {| reg_type := "FundamentalAnalyst"; reg_topic := "FundamentalAnalyst";
     reg_handler := fun self m => Some (FundamentalAnalystAgent_on_analyze self m) |}.

Definition ReportGeneratorAgent : Registration CS Msg :=
  {| reg_type := "ReportGenerator"; reg_topic := "ReportGenerator";
     reg_handler := fun self m => Some (ReportGeneratorAgent_on_report self m) |}.

Definition registered : list (Registration CS Msg) :=
  [DataCollectorAgent; FundamentalAnalystAgent; ReportGeneratorAgent].

(** [run_sequential_scenario] for any company and dict literal, started
    in a process whose heap is [h]. *)
Definition run_sequential (company : string) (data : pydict) (fuel : nat)
    (s : CS) (h : gmap loc pydict) : option (World CS Msg) :=
  let (w, r) := new_dict data (start s h) in
  match r with
  | Ok l =>
      let task := {| InvestmentTask.company := company; InvestmentTask.data := l |} in
      let (w', _) :=
        publish_message None task
          {| topic_type := "DataCollector"; topic_source := "default" |} w in
      stop_when_idle fuel registered w'
  | Raise _ => None
  end.

Definition run_sequential_scenario : nat -> CS -> gmap loc pydict -> option (World CS Msg) :=
  run_sequential "GreenTech Solutions Inc."
    [("sector", PyStr "Renewable Energy"); ("market_cap", PyStr "$5B")].

(** Publishing the same task object again (a replay without rebuilding
    the message). *)
Definition replay (task : InvestmentTask.t) (fuel : nat) (w : World CS Msg)
  : option (World CS Msg) :=
  let (w', _) :=
    publish_message None task
      {| topic_type := "DataCollector"; topic_source := "default" |} w in
  stop_when_idle fuel registered w'.

(** What an observer of a run sees: the calls made to the completion
    service, the topic and the content of every published task (the dict
    read through its reference), the printed lines and the logged
    exceptions. *)
Definition view (w : World CS Msg) (e : Envelope Msg) : TopicId * string * pydict :=
  (env_topic e, InvestmentTask.company (env_message e),
   default [] (heap w !! InvestmentTask.data (env_message e))).

Definition history (w : World CS Msg)
  : list (list LLMMessage) * list (TopicId * string * pydict) * list string * list exn :=
  (calls w, map (view w) (published w), stdout w, errlog w).

(** A deterministic stub: the answer is a function [stub] of the turns. *)
Definition deterministic (stub : list LLMMessage -> res CreateResult.t) : Prop :=
  forall s p, snd (client s p) = stub p.

(** What the stub answers is text. *)
Definition text_only (stub : list LLMMessage -> res CreateResult.t) : Prop :=
  forall p result, stub p = Ok result ->
    exists text, CreateResult.content result = PyStr text.

(** The three stages as transformations of the task's content, for a
    service that answers by [stub]. *)
Definition stage_collect (stub : list LLMMessage -> res CreateResult.t) (d : pydict)
  : res pydict :=
  match stub (DataCollector_prompt d) with
  | Ok result => Ok (dict_set d "collected" (CreateResult.content result))
  | Raise x => Raise x
  end.

Definition stage_analyze (stub : list LLMMessage -> res CreateResult.t) (d : pydict)
  : res pydict :=
  match dict_get d "collected" with
  | None => Raise (KeyError "collected")
  | Some collected =>
      match stub (FundamentalAnalyst_prompt collected) with
      | Ok result => Ok (dict_set d "analysis" (CreateResult.content result))
      | Raise x => Raise x
      end
  end.

Definition stage_report (stub : list LLMMessage -> res CreateResult.t) (company : string)
    (d : pydict) : res string :=
  match dict_get d "analysis" with
  | None => Raise (KeyError "analysis")
  | Some analysis =>
      match stub (ReportGenerator_prompt analysis) with
      | Ok result =>
          Ok (nl ++ "Final Report for " ++ company ++ ":" ++ nl
              ++ py_str (CreateResult.content result))
      | Raise x => Raise x
      end
  end.

Definition and_then {A B} (r : res A) (f : A -> res B) : res B :=
  match r with
  | Ok a => f a
  | Raise x => Raise x
  end.

(** DataCollector, then FundamentalAnalyst, then ReportGenerator. *)
Definition pipeline (stub : list LLMMessage -> res CreateResult.t) (company : string)
    (d : pydict) : res string :=
  and_then (and_then (stage_collect stub d) (stage_analyze stub)) (stage_report stub company).

End Agents.

End AgSequential.

(** ** src/semantic_kernel: agents and orchestration settings *)

Record ChatCompletionAgent := {
  name : string;
  description : option string;
  instructions : string
}.

(** ** src/semantic_kernel/sk_handoff.py *)

Module SkHandoff.

(** [OrchestrationHandoffs]: for each agent name, the agents it may hand
    the conversation to, each with a description. *)
Definition OrchestrationHandoffs : Type := list (string * list (string * string)).

Definition add (source target description : string) (h : OrchestrationHandoffs)
  : OrchestrationHandoffs :=
  assoc_set h source (assoc_set (default [] (assoc_get h source)) target description).

Definition add_many (source : string) (targets : list (string * string))
    (h : OrchestrationHandoffs) : OrchestrationHandoffs :=
  fold_left (fun acc t => add source (fst t) (snd t) acc) targets h.

Definition triage : ChatCompletionAgent :=
  {| name := "TriageAdvisor";
     description := None;
     instructions :=
       "You are the Triage Advisor. "
       ++ "Read customer queries, classify into equity or complex. "
       ++ "Return the best advisor role to hand off to." |}.

Definition equity : ChatCompletionAgent :=
  {| name := "EquitySpecialist";
     description := None;
     instructions :=
       "You are the Equity Specialist. "
       ++ "Provide stock analysis, recommendation, and next steps for equity queries. "
       ++ "Focus on price, valuation, and market catalysts." |}.

Definition human : ChatCompletionAgent :=
  {| name := "HumanAdvisor";
     description := None;
     instructions :=
       "You are the Human Advisor. "
       ++ "Handle questions that AI cannot. "
       ++ "Provide clear, empathetic guidance or escalate as needed." |}.

Definition handoffs : OrchestrationHandoffs :=
  add "EquitySpecialist" "TriageAdvisor" "Return to triage"
    (add_many "TriageAdvisor"
       [("EquitySpecialist", "Equity requests"); ("HumanAdvisor", "Complex cases")]
       []).

Definition get_agents : list ChatCompletionAgent * OrchestrationHandoffs :=
  ([triage; equity; human], handoffs).

(** The settings [run_handoff_investment_consultation] gives the
    orchestration; the two callbacks only print and read the console. *)
Record HandoffOrchestration := {
  members : list ChatCompletionAgent;
  handoffs_of : OrchestrationHandoffs
}.

Definition orchestration : HandoffOrchestration :=
  let (agents, handoffs) := get_agents in
  {| members := agents; handoffs_of := handoffs |}.

(** The targets an agent may hand off to. *)
Definition targets (h : OrchestrationHandoffs) (agent : string) : list string :=
  map fst (default [] (assoc_get h agent)).

Definition may_hand_off (o : HandoffOrchestration) (a b : string) : bool :=
  bool_decide (b ∈ targets (handoffs_of o) a).

(** A session starts with the first member and moves along permitted
    handoffs; [hops] lists the agents control is handed to, in order. *)
Fixpoint permitted (o : HandoffOrchestration) (current : string) (hops : list string)
  : bool :=
  match hops with
  | [] => true
  | next :: rest => may_hand_off o current next && permitted o next rest
  end.

Definition first_agent (o : HandoffOrchestration) : string :=
  match members o with
  | a :: _ => name a
  | [] => ""
  end.

Definition session (o : HandoffOrchestration) (hops : list string) : bool :=
  permitted o (first_agent o) hops.

(** Triage and the equity specialist handing the conversation back and
    forth [n] times each. *)
Fixpoint back_and_forth (n : nat) : list string :=
  match n with
  | O => []
  | S k => "EquitySpecialist" :: "TriageAdvisor" :: back_and_forth k
  end.

End SkHandoff.

(** ** src/semantic_kernel/sk_groupchat.py *)

Module SkGroupchat.

(** Create member agents (limit to 3). *)
Definition members : list ChatCompletionAgent :=
  [ {| name := "Moderator";
       description := Some "Investment Committee Moderator agent";
       instructions :=
         "You are the Investment Committee Moderator. "
         ++ "Manage turn order, prompt agents to speak, and keep discussion on track. "
         ++ "After each round, summarize key points." |};
    {| name := "FundamentalAnalyst";
       description := Some "Agent analyzing financials and valuations";
       instructions :=
         "You are a Fundamental Analyst. "
         ++ "Critically analyze company financials, valuation, and risks. "
         ++ "Respond in 2–3 bullet points." |};
    {| name := "RiskManager";
       description := Some "Agent identifying and quantifying key risks";
       instructions :=
         "You are a Risk Manager. "
         ++ "Identify and quantify key risks, mitigation strategies, and risk-adjusted returns. "
         ++ "Respond in 2–3 bullet points." |} ].

Record RoundRobinGroupChatManager := { max_rounds : nat }.

Record GroupChatOrchestration := {
  orchestration_members : list ChatCompletionAgent;
  manager : RoundRobinGroupChatManager
}.

Definition orchestration : GroupChatOrchestration :=
  {| orchestration_members := members; manager := {| max_rounds := 5 |} |}.

(** The speakers of the transcript recorded at the end of the script, in
    order. *)
Definition recorded_transcript : list string :=
  ["Moderator"; "FundamentalAnalyst"; "RiskManager"; "Moderator"; "FundamentalAnalyst"].

(** Modelled from the spec: the state of a round-robin session.  The
    manager itself (class RoundRobinGroupChatManager, imported from the
    framework) is not among the sources; the spec describes it: "maintain a
    cursor over an ordered Agent list; each turn dispatches the latest
    Message to the Agent at the cursor, appends the reply to history,
    advances the cursor (wrapping), and stops after a configured maximum
    round count". *)
Record Chat := {
  cursor : nat;
  turns : list string     (* who replied, oldest first *)
}.

Definition opening : Chat := {| cursor := 0; turns := [] |}.

(** Modelled from the spec: one turn; the agent at the cursor replies and
    the cursor advances, wrapping at the end of the list. *)
Definition turn (agents : list ChatCompletionAgent) (c : Chat) : Chat :=
  match agents !! cursor c with
  | Some a =>
      {| cursor := S (cursor c) mod length agents;
         turns := turns c ++ [name a] |}
  | None => c
  end.

(** The chat after [n] turns. *)
Definition after (agents : list ChatCompletionAgent) (n : nat) : Chat :=
  Nat.iter n (turn agents) opening.

(** Modelled from the spec: the turns a session may take, a round being
    one pass over the list ("3 agents over 5 rounds -> exactly 15
    turns"). *)
Definition turn_budget (o : GroupChatOrchestration) : nat :=
  max_rounds (manager o) * length (orchestration_members o).

(** Modelled from the spec: the session; turns are taken until the budget
    of rounds is spent. *)
Definition run (o : GroupChatOrchestration) : Chat :=
  after (orchestration_members o) (turn_budget o).

End SkGroupchat.

(** ** Stub completion services *)

Module Stub.

(** Answers every call with the same text. *)
Definition always (text : string) : Client unit :=
  fun s _ => (s, Ok {| CreateResult.content := PyStr text |}).

(** Fails every call. *)
Definition failing : Client unit :=
  fun s _ => (s, Raise (ServiceError "quota exceeded")).

(** Fails the first call and answers from the second on; the state counts
    the calls. *)
Definition flaky : Client nat :=
  fun n _ =>
    (S n, match n with
          | O => Raise (ServiceError "timeout")
          | S _ => Ok {| CreateResult.content := PyStr "ok" |}
          end).

(** Answers the first call and fails from the second on; the state counts
    the calls. *)
Definition once : Client nat :=
  fun n _ =>
    (S n, match n with
          | O => Ok {| CreateResult.content := PyStr "collected data" |}
          | S _ => Raise (ServiceError "timeout")
          end).

(** Answers with an empty list of function calls instead of text. *)
Definition tool_calls : Client unit :=
  fun s _ => (s, Ok {| CreateResult.content := PyList [] |}).

(** Answers with the content of the last user turn, marked as seen. *)
Definition last_user (messages : list LLMMessage) : pyval :=
  fold_left (fun acc m => match m with
                          | UserMessage c _ => c
                          | SystemMessage _ => acc
                          end) messages PyNone.

Definition echo `{PyBuiltins} : Client unit :=
  fun s messages =>
    (s, Ok {| CreateResult.content := PyStr ("seen(" ++ py_str (last_user messages) ++ ")") |}).

End Stub.

(** * Properties *)

(** ** Strings and dicts *)

Lemma prefix_app (sub s : string) :
  String.prefix sub s = true <-> exists post, s = sub ++ post.
Proof.
  revert s. induction sub as [|c sub IH]; intros s.
  - split; [intros _; exists s; reflexivity | intros _; destruct s; reflexivity].
  - destruct s as [|d s]; simpl.
    + split; [discriminate | intros [post Hp]; discriminate].
    + destruct (ascii_dec c d) as [->|Hne].
      * rewrite IH. split; intros [post Hp]; exists post.
        -- rewrite Hp. reflexivity.
        -- change (String d s = String d (sub ++ post)) in Hp. congruence.
      * split; [discriminate | intros [post Hp]].
        change (String d s = String c (sub ++ post)) in Hp. congruence.
Qed.

Lemma str_in_unfold (sub s : string) :
  str_in sub s =
  String.prefix sub s
  || match s with
     | EmptyString => false
     | String _ rest => str_in sub rest
     end.
Proof. destruct s; reflexivity. Qed.

(** [str_in] is Python's substring test. *)
Lemma str_in_spec (sub s : string) :
  str_in sub s = true <-> exists pre post, s = pre ++ sub ++ post.
Proof.
  induction s as [|c s IH]; rewrite str_in_unfold, orb_true_iff, prefix_app.
  - split.
    + intros [[post Hp]|Hf]; [exists "", post; exact Hp | discriminate Hf].
    + intros [pre [post Hs]]. left.
      destruct pre as [|d pre]; [exists post; exact Hs | discriminate Hs].
  - rewrite IH. split.
    + intros [[post Hp]|[pre [post Hs]]].
      * exists "", post. exact Hp.
      * exists (String c pre), post. rewrite Hs. reflexivity.
    + intros [pre [post Hs]]. destruct pre as [|d pre].
      * left. exists post. exact Hs.
      * right. change (String c s = String d (pre ++ sub ++ post)) in Hs.
        exists pre, post. congruence.
Qed.

Lemma str_in_false (sub s : string) :
  str_in sub s = false <-> ~ exists pre post, s = pre ++ sub ++ post.
Proof.
  rewrite <- str_in_spec. destruct (str_in sub s); split; congruence.
Qed.

(** ** The runtime *)

Section RuntimeProperties.

Context {CS Msg : Type}.

Implicit Types (w : World CS Msg) (e : Envelope Msg) (r : Registration CS Msg).

(** Delivery runs the handler; a raised exception only reaches the log. *)
Lemma deliver_handled e w r (h : M CS Msg unit) :
  reg_handler r (instance_of r e) (env_message e) = Some h ->
  svc (deliver e w r) = svc (fst (h w))
  /\ calls (deliver e w r) = calls (fst (h w))
  /\ queue (deliver e w r) = queue (fst (h w))
  /\ published (deliver e w r) = published (fst (h w))
  /\ stdout (deliver e w r) = stdout (fst (h w))
  /\ heap (deliver e w r) = heap (fst (h w))
  /\ errlog (deliver e w r)
     = (errlog (fst (h w))
        ++ match snd (h w) with
           | Ok _ => []
           | Raise x => [x]
           end)%list.
Proof.
  intros Hh. unfold deliver. rewrite Hh.
  destruct (h w) as [w' [[]|x]]; simpl; rewrite ?app_nil_r; repeat split; reflexivity.
Qed.

Lemma stop_when_idle_nil (regs : list (Registration CS Msg)) (fuel : nat) w :
  queue w = [] -> stop_when_idle fuel regs w = Some w.
Proof.
  intros Hq. destruct fuel; unfold stop_when_idle, process_next, pop; rewrite Hq;
    reflexivity.
Qed.

Lemma stop_when_idle_cons (regs : list (Registration CS Msg)) (fuel : nat) w e q :
  queue w = e :: q ->
  stop_when_idle (S fuel) regs w
  = stop_when_idle fuel regs
      (fold_left (deliver e) (filter (fun r => receives e r = true) regs)
         {| svc := svc w; calls := calls w; queue := q; published := published w;
            stdout := stdout w; heap := heap w; errlog := errlog w |}).
Proof.
  intros Hq. cbn [stop_when_idle]. unfold process_next, pop. rewrite Hq. reflexivity.
Qed.

(** Messages nobody is subscribed to are dropped one by one. *)
Lemma drain (regs : list (Registration CS Msg)) (fuel : nat) w :
  Forall (no_receiver regs) (queue w) ->
  length (queue w) <= fuel ->
  exists w',
    stop_when_idle fuel regs w = Some w'
    /\ queue w' = []
    /\ svc w' = svc w /\ calls w' = calls w /\ published w' = published w
    /\ stdout w' = stdout w /\ heap w' = heap w /\ errlog w' = errlog w.
Proof.
  revert w. induction fuel as [|fuel IH]; intros w Hq Hlen.
  - destruct w as [s c q p o h l]. simpl in *.
    destruct q as [|e q]; [|simpl in Hlen; lia].
    eexists. unfold stop_when_idle, process_next, pop. simpl.
    repeat split; reflexivity.
  - destruct w as [s c q p o h l]. simpl in *.
    destruct q as [|e q].
    + eexists. unfold process_next, pop. simpl. repeat split; reflexivity.
    + apply Forall_cons in Hq as [He Hq]. unfold process_next, pop. simpl.
      unfold no_receiver in He. rewrite He. simpl.
      destruct (IH {| svc := s; calls := c; queue := q; published := p; stdout := o;
                      heap := h; errlog := l |}) as [w' Hw']; simpl in *; [exact Hq|lia|].
      exists w'. exact Hw'.
Qed.

End RuntimeProperties.

(** ** Handoff by keyword (ag_handoff.py) *)

Section HandoffProperties.

Import AgHandoff.

Context `{PyBuiltins} {CS : Type} (client : Client CS).

(** What triage adds to the published messages: nothing when the client
    raised, else the one [HandoffResponse]. *)
Lemma triage_published (self : AgentId) (message : InvestmentRequest.t)
    (w : World CS Msg) :
  published (fst (TriageAdvisor_on_request client self message w)) =
  (published w ++
   match snd (client (svc w) (TriageAdvisor_prompt message)) with
   | Ok result =>
       [ {| env_sender := Some self;
            env_topic := DefaultTopicId (Some self);
            env_message :=
              Handoff
                {| HandoffResponse.handler :=
                     if str_in "invest" (str_lower (InvestmentRequest.inquiry message))
                     then "specialist" else "refund";
                   HandoffResponse.content := CreateResult.content result;
                   HandoffResponse.request_id := InvestmentRequest.request_id message |} |} ]
   | Raise _ => []
   end)%list.
Proof.
  unfold TriageAdvisor_on_request, bind, create.
  destruct (client (svc w) (TriageAdvisor_prompt message)) as [s' [result|e]]; simpl.
  - reflexivity.
  - rewrite app_nil_r. reflexivity.
Qed.

(** C2.  The handler field of the response triage publishes is decided by
    the keyword alone: "specialist" when the lower-cased inquiry contains
    "invest", "refund" when it does not, and nothing else; one response is
    published when the client answers, none when it raises. *)
Theorem triage_handler_by_keyword (self : AgentId) (message : InvestmentRequest.t)
    (w : World CS Msg) :
  let keyword :=
    exists pre post,
      str_lower (InvestmentRequest.inquiry message) = pre ++ "invest" ++ post in
  let answer := snd (client (svc w) (TriageAdvisor_prompt message)) in
  exists new : list (Envelope Msg),
    published (fst (TriageAdvisor_on_request client self message w))
    = (published w ++ new)%list
    /\ length new = match answer with Ok _ => 1%nat | Raise _ => 0%nat end
    /\ forall e, e ∈ new ->
         exists response,
           env_message e = Handoff response
           /\ (keyword -> HandoffResponse.handler response = "specialist")
           /\ (~ keyword -> HandoffResponse.handler response = "refund")
           /\ (HandoffResponse.handler response = "specialist"
               \/ HandoffResponse.handler response = "refund").
Proof.
  intros keyword answer. subst keyword answer.
  eexists. split; [apply triage_published|].
  destruct (snd (client (svc w) (TriageAdvisor_prompt message))) as [result|x].
  - split; [reflexivity|].
    intros e He. apply list_elem_of_singleton in He. subst e. simpl.
    eexists. split; [reflexivity|]. simpl.
    destruct (str_in "invest" (str_lower (InvestmentRequest.inquiry message))) eqn:Hk.
    + apply str_in_spec in Hk. repeat split; auto. intros Hn. contradiction.
    + apply str_in_false in Hk. repeat split; auto. intros Hy. contradiction.
  - split; [reflexivity|]. intros e He. inversion He.
Qed.

Lemma equity_acts_iff (self : AgentId) (response : HandoffResponse.t) (w : World CS Msg) :
  acted w (fst (EquitySpecialist_on_handoff client self response w))
  <-> HandoffResponse.handler response = "specialist".
Proof.
  unfold EquitySpecialist_on_handoff, acted.
  destruct (String.eqb_spec (HandoffResponse.handler response) "specialist") as [Heq|Hne];
    simpl.
  - split; [intros _; exact Heq|]. intros _. left.
    unfold bind, create.
    destruct (client (svc w) _) as [s' [result|x]]; simpl; rewrite length_app; simpl; lia.
  - split; [lia | contradiction].
Qed.

Lemma human_acts_iff (self : AgentId) (response : HandoffResponse.t) (w : World CS Msg) :
  acted w (fst (HumanAdvisor_on_handoff self response w))
  <-> HandoffResponse.handler response = "refund".
Proof.
  unfold HumanAdvisor_on_handoff, acted.
  destruct (String.eqb_spec (HandoffResponse.handler response) "refund") as [Heq|Hne];
    simpl.
  - split; [intros _; exact Heq|]. intros _. right. rewrite length_app. simpl. lia.
  - split; [lia | contradiction].
Qed.

(** C3.  The equity specialist acts on a [HandoffResponse] (with the text
    of the service as content) exactly when its handler is "specialist",
    the human advisor exactly when it is "refund"; on a response published
    by triage exactly one of the two acts. *)
Theorem exactly_one_target_acts (equity human : AgentId) (response : HandoffResponse.t)
    (text : string) (w : World CS Msg) :
  HandoffResponse.content response = PyStr text ->
  let equity_acts := acted w (fst (EquitySpecialist_on_handoff client equity response w)) in
  let human_acts := acted w (fst (HumanAdvisor_on_handoff human response w)) in
  (equity_acts <-> HandoffResponse.handler response = "specialist")
  /\ (human_acts <-> HandoffResponse.handler response = "refund")
  /\ forall (triage : AgentId) (request : InvestmentRequest.t) (w0 : World CS Msg)
            (new : list (Envelope Msg)) (e : Envelope Msg),
       published (fst (TriageAdvisor_on_request client triage request w0))
       = (published w0 ++ new)%list ->
       e ∈ new ->
       env_message e = Handoff response ->
       (equity_acts /\ ~ human_acts) \/ (~ equity_acts /\ human_acts).
Proof.
  intros _ equity_acts human_acts. subst equity_acts human_acts.
  split; [apply equity_acts_iff|]. split; [apply human_acts_iff|].
  intros triage request w0 new e Hpub He Hmsg.
  rewrite triage_published in Hpub. apply app_inv_head in Hpub. subst new.
  destruct (snd (client (svc w0) (TriageAdvisor_prompt request))) as [result|x];
    [|inversion He].
  apply list_elem_of_singleton in He. subst e. simpl in Hmsg.
  injection Hmsg as <-. rewrite equity_acts_iff, human_acts_iff. simpl.
  destruct (str_in "invest" (str_lower (InvestmentRequest.inquiry request)));
    [left | right]; split; first [reflexivity | discriminate].
Qed.

End HandoffProperties.

(** ** Fan-out to the three analysts (ag_concurrent.py) *)

Section ConcurrentProperties.

Import AgConcurrent.

Context `{PyBuiltins} {CS : Type} (client : Client CS).

(** The recommendation and the confidence [analyze] extracts from a text. *)
Lemma analyze_effect (agent : BaseAnalysisAgent) (self : AgentId)
    (message : InvestmentRequest.t) (w : World CS Msg) :
  exists new : list (Envelope Msg),
    queue (fst (analyze client agent self message w)) = (queue w ++ new)%list
    /\ published (fst (analyze client agent self message w)) = (published w ++ new)%list
    /\ length (calls (fst (analyze client agent self message w))) = S (length (calls w))
    /\ svc (fst (analyze client agent self message w))
       = fst (client (svc w) (analyze_prompt agent message))
    /\ new =
       match snd (client (svc w) (analyze_prompt agent message)) with
       | Ok {| CreateResult.content := PyStr text |} =>
           [ {| env_sender := Some self;
                env_topic := results_topic_id;
                env_message :=
                  Result
                    {| AnalysisResult.analyst_type := service_id agent;
                       AnalysisResult.company := InvestmentRequest.company message;
                       AnalysisResult.analysis := text;
                       AnalysisResult.recommendation :=
                         if str_in "BUY" (str_upper text) then "BUY"
                         else if str_in "SELL" (str_upper text) then "SELL"
                         else "HOLD";
                       AnalysisResult.confidence_score :=
                         if str_in "BUY" (str_upper text) then 0.8%float
                         else if str_in "SELL" (str_upper text) then 0.75%float
                         else 0.7%float;
                       AnalysisResult.request_id := InvestmentRequest.request_id message |} |} ]
       | _ => []
       end.
Proof.
  unfold analyze, bind, create.
  destruct (client (svc w) (analyze_prompt agent message)) as [s' [[content]|x]];
    [destruct content as [| | |text| |]|]; simpl;
    try (exists []; rewrite ?app_nil_r, ?length_app; simpl;
         repeat split; try reflexivity; lia).
  destruct (str_in "BUY" (str_upper text)); [|destruct (str_in "SELL" (str_upper text))];
    simpl; (eexists; split; [reflexivity|]; split; [reflexivity|];
            split; [rewrite length_app; simpl; lia|]; split; reflexivity).
Qed.

(** Delivering one request to a list of analysts, one after the other. *)
Lemma fan_out (request : InvestmentRequest.t) (order : list (BaseAnalysisAgent * string))
    (w : World CS Msg) :
  let seed :=
    {| env_sender := None; env_topic := DefaultTopicId None;
       env_message := Request request |} in
  let w' :=
    fold_left (deliver seed) (map (fun a => register client (fst a) (snd a)) order) w in
  exists new : list (Envelope Msg),
    queue w' = (queue w ++ new)%list
    /\ published w' = (published w ++ new)%list
    /\ Forall (fun e => env_topic e = results_topic_id) new
    /\ (length new <= length order)%nat
    /\ length (calls w') = (length (calls w) + length order)%nat
    /\ map AnalysisResult.analyst_type (omap result_in new)
        `sublist_of` map (fun a => service_id (fst a)) order
    /\ (answers_text client ->
        map AnalysisResult.analyst_type (omap result_in new)
        = map (fun a => service_id (fst a)) order).
Proof.
  intros seed. revert w. induction order as [|a order IH]; intros w; simpl.
  - exists []. rewrite !app_nil_r. repeat split; auto; simpl; try lia; constructor.
  - set (self := instance_of (register client (fst a) (snd a)) seed).
    destruct (deliver_handled seed w (register client (fst a) (snd a))
                (analyze client (fst a) self request) eq_refl)
      as (Hsvc & Hcalls & Hqueue & Hpub & _).
    destruct (analyze_effect (fst a) self request w)
      as (new1 & Hq1 & Hp1 & Hc1 & Hs1 & Hnew1).
    destruct (IH (deliver seed w (register client (fst a) (snd a))))
      as (new2 & Hq2 & Hp2 & Htopic2 & Hlen2 & Hc2 & Hsub2 & Hall2).
    exists (new1 ++ new2)%list.
    rewrite Hq2, Hp2, Hc2, Hqueue, Hpub, Hcalls, Hq1, Hp1, Hc1, <- !app_assoc.
    split; [reflexivity|]. split; [reflexivity|].
    rewrite omap_app, map_app.
    destruct (snd (client (svc w) (analyze_prompt (fst a) request)))
      as [[[| | |text| |]]|x] eqn:Hanswer; subst new1; simpl;
      try (repeat split;
           [exact Htopic2 | lia | lia | apply sublist_cons, Hsub2
           | intros Hall; destruct (Hall (svc w) (analyze_prompt (fst a) request))
               as [text Htext]; congruence]).
    repeat split.
    + constructor; [reflexivity | exact Htopic2].
    + lia.
    + lia.
    + apply sublist_skip, Hsub2.
    + intros Hall. f_equal. apply Hall2, Hall.
Qed.

Lemma all_analysts_receive (request : InvestmentRequest.t)
    (order : list (BaseAnalysisAgent * string)) :
  let seed :=
    {| env_sender := None; env_topic := DefaultTopicId None;
       env_message := Request request |} in
  filter (fun r => receives seed r = true)
    (map (fun a => register client (fst a) (snd a)) order)
  = map (fun a => register client (fst a) (snd a)) order.
Proof.
  intros seed. induction order as [|a order IH]; [reflexivity|].
  simpl. rewrite filter_cons_True by reflexivity. f_equal. exact IH.
Qed.

Lemma results_have_no_receiver (order : list (BaseAnalysisAgent * string))
    (e : Envelope Msg) :
  env_topic e = results_topic_id ->
  no_receiver (map (fun a => register client (fst a) (snd a)) order) e.
Proof.
  intros He. unfold no_receiver.
  induction order as [|a order IH]; [reflexivity|].
  simpl. rewrite filter_cons_False; [exact IH|].
  unfold receives. rewrite He. simpl. discriminate.
Qed.

(** C4.  Whatever the completion service does and in whatever order the
    three registered analysts get to run, the run ends with at most three
    [AnalysisResult]s, their analyst types pairwise distinct and among the
    registered ones; when the service answers every call with text, each
    analyst publishes exactly one, tagged with its own type. *)
Theorem fan_out_one_result_per_analyst (order : list (BaseAnalysisAgent * string))
    (request : InvestmentRequest.t) (fuel : nat) (s : CS) :
  order ≡ₚ analysts ->
  (4 <= fuel)%nat ->
  exists w,
    run_concurrent client order request fuel s = Some w
    /\ let types := map AnalysisResult.analyst_type (results_of w) in
       (length types <= 3)%nat
       /\ NoDup types
       /\ (forall t, t ∈ types ->
             t ∈ ["fundamental_analyst"; "technical_analyst"; "sentiment_analyst"])
       /\ length (calls w) = 3%nat
       /\ Forall (fun e => is_Some (result_in e) -> env_topic e = results_topic_id)
            (published w)
       /\ (answers_text client ->
           types = map (fun a => service_id (fst a)) order
           /\ types ≡ₚ ["fundamental_analyst"; "technical_analyst"; "sentiment_analyst"]).
Proof.
  intros Hperm Hfuel.
  assert (Hids : map (fun a => service_id (fst a)) order
                 ≡ₚ ["fundamental_analyst"; "technical_analyst"; "sentiment_analyst"]).
  { rewrite Hperm. reflexivity. }
  assert (Hlen : length order = 3%nat) by (rewrite Hperm; reflexivity).
  destruct fuel as [|fuel]; [lia|].
  unfold run_concurrent, publish_message, start. simpl.
  unfold process_next, pop. simpl.
  rewrite (all_analysts_receive request order).
  match goal with |- context [fold_left _ _ ?x] => set (w0 := x) end.
  destruct (fan_out request order w0)
    as (new & Hq & Hp & Htopic & Hlnew & Hc & Hsub & Hall).
  match goal with |- context [stop_when_idle _ _ ?x] => set (w1 := x) in * end.
  destruct (drain (map (fun a => register client (fst a) (snd a)) order) fuel w1)
    as (w' & Hrun & _ & _ & Hcalls & Hpub & _).
  { rewrite Hq. simpl.
    eapply Forall_impl; [exact Htopic|]. intros e. apply results_have_no_receiver. }
  { rewrite Hq. simpl. lia. }
  exists w'. split; [exact Hrun|].
  assert (Htopics : Forall (fun e => is_Some (result_in e) -> env_topic e = results_topic_id)
                      (published w')).
  { rewrite Hpub, Hp. apply Forall_app. split.
    - constructor; [|constructor]. intros [r Hr]. discriminate Hr.
    - eapply Forall_impl; [exact Htopic|]. intros e He _. exact He. }
  rewrite Hpub, Hp in Htopics.
  unfold results_of. rewrite Hpub, Hp, Hcalls, Hc.
  replace (omap result_in (published w0 ++ new)%list) with (omap result_in new)
    by reflexivity.
  change (length (calls w0)) with 0%nat.
  pose proof (sublist_length _ _ Hsub) as Hcount.
  pose proof (Permutation_length Hids) as Hthree. simpl in Hthree.
  cbv zeta. split; [lia|]. split; [|split; [|split; [lia|split; [exact Htopics|]]]].
  - refine (sublist_NoDup _ _ _ Hsub). rewrite Hids.
    apply (bool_decide_unpack _). reflexivity.
  - intros t Ht. rewrite <- Hids. exact (elem_of_sublist _ _ _ Ht Hsub).
  - intros Htext. rewrite (Hall Htext). split; [reflexivity | exact Hids].
Qed.

(** C10.  When the service answers an analyst with a text, the published
    result carries ("BUY", 0.8) if the upper-cased text contains "BUY"
    (whether or not it contains "SELL"), else ("SELL", 0.75) if it
    contains "SELL", else ("HOLD", 0.7); exactly one result is published
    and no other pair occurs. *)
Theorem recommendation_extraction (agent : BaseAnalysisAgent) (self : AgentId)
    (message : InvestmentRequest.t) (w : World CS Msg) (text : string) :
  snd (client (svc w) (analyze_prompt agent message))
  = Ok {| CreateResult.content := PyStr text |} ->
  let has := fun k => exists pre post, str_upper text = pre ++ k ++ post in
  exists r : AnalysisResult.t,
    published (fst (analyze client agent self message w))
    = (published w
       ++ [ {| env_sender := Some self; env_topic := results_topic_id;
               env_message := Result r |} ])%list
    /\ AnalysisResult.analysis r = text
    /\ let pair := (AnalysisResult.recommendation r, AnalysisResult.confidence_score r) in
       (has "BUY" -> pair = ("BUY", 0.8%float))
       /\ (~ has "BUY" -> has "SELL" -> pair = ("SELL", 0.75%float))
       /\ (~ has "BUY" -> ~ has "SELL" -> pair = ("HOLD", 0.7%float))
       /\ (pair = ("BUY", 0.8%float) \/ pair = ("SELL", 0.75%float)
           \/ pair = ("HOLD", 0.7%float)).
Proof.
  intros Hanswer has.
  destruct (analyze_effect agent self message w) as (new & _ & Hpub & _ & _ & Hnew).
  rewrite Hanswer in Hnew. subst new.
  eexists. split; [exact Hpub|]. split; [reflexivity|]. simpl. subst has.
  destruct (str_in "BUY" (str_upper text)) eqn:Hbuy;
    [|destruct (str_in "SELL" (str_upper text)) eqn:Hsell].
  - apply str_in_spec in Hbuy. repeat split; auto; intros; contradiction.
  - apply str_in_false in Hbuy. apply str_in_spec in Hsell.
    repeat split; auto; intros; contradiction.
  - apply str_in_false in Hbuy. apply str_in_false in Hsell.
    repeat split; auto; intros; contradiction.
Qed.

End ConcurrentProperties.

(** ** The request id travels with the message *)

Section CorrelationProperties.

Context `{PyBuiltins} {CS : Type} (client : Client CS).

(** C6.  Whatever an analyst publishes for a request is an
    [AnalysisResult] with the request's [request_id] and [company], and it
    publishes one whenever the client answers with text; whatever triage
    publishes for a request is a [HandoffResponse] with the request's
    [request_id], and it publishes one whenever the client answers. *)
Theorem request_id_preserved :
  (forall (agent : AgConcurrent.BaseAnalysisAgent) (self : AgentId)
          (message : AgConcurrent.InvestmentRequest.t)
          (w : World CS AgConcurrent.Msg),
     exists new : list (Envelope AgConcurrent.Msg),
       published (fst (AgConcurrent.analyze client agent self message w))
       = (published w ++ new)%list
       /\ (forall text,
             snd (client (svc w) (AgConcurrent.analyze_prompt agent message))
             = Ok {| CreateResult.content := PyStr text |} ->
             length new = 1%nat)
       /\ forall e, e ∈ new ->
            exists r,
              env_message e = AgConcurrent.Result r
              /\ AgConcurrent.AnalysisResult.request_id r
                 = AgConcurrent.InvestmentRequest.request_id message
              /\ AgConcurrent.AnalysisResult.company r
                 = AgConcurrent.InvestmentRequest.company message)
  /\ (forall (self : AgentId) (message : AgHandoff.InvestmentRequest.t)
             (w : World CS AgHandoff.Msg),
        exists new : list (Envelope AgHandoff.Msg),
          published (fst (AgHandoff.TriageAdvisor_on_request client self message w))
          = (published w ++ new)%list
          /\ (forall result,
                snd (client (svc w) (AgHandoff.TriageAdvisor_prompt message)) = Ok result ->
                length new = 1%nat)
          /\ forall e, e ∈ new ->
               exists r,
                 env_message e = AgHandoff.Handoff r
                 /\ AgHandoff.HandoffResponse.request_id r
                    = AgHandoff.InvestmentRequest.request_id message).
Proof.
  split.
  - intros agent self message w.
    destruct (analyze_effect client agent self message w)
      as (new & _ & Hpub & _ & _ & Hnew).
    exists new. split; [exact Hpub|].
    destruct (snd (client (svc w) (AgConcurrent.analyze_prompt agent message)))
      as [[[| | |text| |]]|x]; subst new;
      (split; [intros t Ht; first [discriminate Ht | reflexivity]|]);
      intros e He; try (inversion He; fail).
    apply list_elem_of_singleton in He. subst e.
    eexists. split; [reflexivity|]. split; reflexivity.
  - intros self message w.
    eexists. split; [apply triage_published|].
    destruct (snd (client (svc w) (AgHandoff.TriageAdvisor_prompt message)))
      as [result|x];
      (split; [intros t Ht; first [discriminate Ht | reflexivity]|]);
      intros e He; try (inversion He; fail).
    apply list_elem_of_singleton in He. subst e.
    eexists. split; [reflexivity|]. reflexivity.
Qed.

End CorrelationProperties.

(** ** One call to the completion service, no retry *)

Section ServiceCalls.

Context `{PyBuiltins} {CS : Type} (client : Client CS).

(** A handler that starts with the call and does not call again. *)
Lemma call_then {Msg : Type} (prompt : list LLMMessage)
    (k : CreateResult.t -> M CS Msg unit) (w : World CS Msg) :
  (forall r w1, calls (fst (k r w1)) = calls w1) ->
  calls_once_no_retry client prompt (bind (create client prompt) k) w.
Proof.
  intros Hk. unfold calls_once_no_retry, bind, create.
  destruct (client (svc w) prompt) as [s' [r|x]]; simpl.
  - rewrite Hk. simpl. split; [reflexivity | discriminate].
  - split; [reflexivity|]. intros y Hy. congruence.
Qed.

Lemma once_invocations {Msg : Type} (prompt : list LLMMessage) (h : M CS Msg unit)
    (w : World CS Msg) :
  calls_once_no_retry client prompt h w -> invocations h w = 1%nat.
Proof.
  intros [Hc _]. unfold invocations. rewrite Hc, length_app. simpl. lia.
Qed.

Lemma never_invocations {Msg : Type} (h : M CS Msg unit) (w : World CS Msg) :
  never_calls h w -> invocations h w = 0%nat.
Proof. intros Hc. unfold invocations. rewrite Hc. lia. Qed.

(** The handlers that reach the service only on some inputs. *)
Lemma equity_calls self message (w : World CS AgHandoff.Msg) :
  if String.eqb (AgHandoff.HandoffResponse.handler message) "specialist"
  then calls_once_no_retry client
         [AgHandoff.EquitySpecialist_system;
          UserMessage (AgHandoff.HandoffResponse.content message) "EquitySpecialist"]
         (AgHandoff.EquitySpecialist_on_handoff client self message) w
  else never_calls (AgHandoff.EquitySpecialist_on_handoff client self message) w.
Proof.
  unfold AgHandoff.EquitySpecialist_on_handoff.
  destruct (String.eqb _ "specialist"); simpl; [apply call_then|]; reflexivity.
Qed.

Lemma on_analyze_calls self message (w : World CS AgSequential.Msg) :
  match dict_get (default [] (heap w !! AgSequential.InvestmentTask.data message))
          "collected" with
  | Some collected =>
      calls_once_no_retry client (AgSequential.FundamentalAnalyst_prompt collected)
        (AgSequential.FundamentalAnalystAgent_on_analyze client self message) w
  | None =>
      never_calls (AgSequential.FundamentalAnalystAgent_on_analyze client self message) w
      /\ snd (AgSequential.FundamentalAnalystAgent_on_analyze client self message w)
         = Raise (KeyError "collected")
  end.
Proof.
  unfold AgSequential.FundamentalAnalystAgent_on_analyze, AgSequential.getitem.
  destruct (dict_get _ "collected") as [collected|] eqn:Hget.
  - match goal with |- calls_once_no_retry _ ?p ?h w =>
      assert (Hstep : h w = bind (create client p)
                (fun result =>
                   bind (setitem (AgSequential.InvestmentTask.data message) "analysis"
                           (CreateResult.content result))
                     (fun _ => publish_message (Some self) message
                        {| topic_type := "ReportGenerator";
                           topic_source := agent_key self |})) w)
        by (unfold bind at 1 2; unfold deref, bind at 1; simpl; rewrite Hget; reflexivity)
    end.
    unfold calls_once_no_retry. rewrite Hstep. apply call_then. reflexivity.
  - unfold never_calls, bind, deref. simpl. rewrite Hget. split; reflexivity.
Qed.

Lemma on_report_calls self message (w : World CS AgSequential.Msg) :
  match dict_get (default [] (heap w !! AgSequential.InvestmentTask.data message))
          "analysis" with
  | Some analysis =>
      calls_once_no_retry client (AgSequential.ReportGenerator_prompt analysis)
        (AgSequential.ReportGeneratorAgent_on_report client self message) w
  | None =>
      never_calls (AgSequential.ReportGeneratorAgent_on_report client self message) w
      /\ snd (AgSequential.ReportGeneratorAgent_on_report client self message w)
         = Raise (KeyError "analysis")
  end.
Proof.
  unfold AgSequential.ReportGeneratorAgent_on_report, AgSequential.getitem.
  destruct (dict_get _ "analysis") as [analysis|] eqn:Hget.
  - match goal with |- calls_once_no_retry _ ?p ?h w =>
      assert (Hstep : h w = bind (create client p)
                (fun result =>
                   print (nl ++ "Final Report for "
                          ++ AgSequential.InvestmentTask.company message ++ ":" ++ nl
                          ++ py_str (CreateResult.content result))) w)
        by (unfold bind at 1 2; unfold deref, bind at 1; simpl; rewrite Hget; reflexivity)
    end.
    unfold calls_once_no_retry. rewrite Hstep. apply call_then. reflexivity.
  - unfold never_calls, bind, deref. simpl. rewrite Hget. split; reflexivity.
Qed.

(** C5 (amended).  No handler calls the completion service more than once
    for a message, and none retries: where a handler consults the service
    it makes one call, and when that call raises, the handler leaves with
    the same exception.  The moderator, the human advisor, the equity
    specialist on a response meant for someone else, and a pipeline stage
    whose input key is missing make no call. *)
Theorem one_service_call_no_retry :
  (forall agent self message (w : World CS AgConcurrent.Msg),
     calls_once_no_retry client (AgConcurrent.analyze_prompt agent message)
       (AgConcurrent.analyze client agent self message) w)
  /\ (forall self message (w : World CS AgGroupchat.Msg),
        calls_once_no_retry client
          [SystemMessage "Provide a brief fundamental analysis.";
           UserMessage (PyStr (AgGroupchat.GroupMessage.text message)) "FundamentalAnalyst"]
          (AgGroupchat.FundamentalAnalyst_on_discussion client self message) w)
  /\ (forall self message (w : World CS AgGroupchat.Msg),
        calls_once_no_retry client
          [SystemMessage "Provide a brief risk assessment.";
           UserMessage (PyStr (AgGroupchat.GroupMessage.text message)) "RiskManager"]
          (AgGroupchat.RiskManager_on_discussion client self message) w)
  /\ (forall self message (w : World CS AgGroupchat.Msg),
        never_calls (AgGroupchat.Moderator_on_proposal self message) w)
  /\ (forall self message (w : World CS AgHandoff.Msg),
        calls_once_no_retry client (AgHandoff.TriageAdvisor_prompt message)
          (AgHandoff.TriageAdvisor_on_request client self message) w)
  /\ (forall self message (w : World CS AgHandoff.Msg),
        let h := AgHandoff.EquitySpecialist_on_handoff client self message in
        (forall text,
           AgHandoff.HandoffResponse.handler message = "specialist" ->
           AgHandoff.HandoffResponse.content message = PyStr text ->
           calls_once_no_retry client
             [AgHandoff.EquitySpecialist_system; UserMessage (PyStr text) "EquitySpecialist"]
             h w)
        /\ (AgHandoff.HandoffResponse.handler message <> "specialist" -> never_calls h w)
        /\ (invocations h w <= 1)%nat)
  /\ (forall self message (w : World CS AgHandoff.Msg),
        never_calls (AgHandoff.HumanAdvisor_on_handoff self message) w)
  /\ (forall self message (w : World CS AgSequential.Msg),
        calls_once_no_retry client
          (AgSequential.DataCollector_prompt
             (default [] (heap w !! AgSequential.InvestmentTask.data message)))
          (AgSequential.DataCollectorAgent_on_collect client self message) w)
  /\ (forall self message (w : World CS AgSequential.Msg),
        let d := default [] (heap w !! AgSequential.InvestmentTask.data message) in
        let h := AgSequential.FundamentalAnalystAgent_on_analyze client self message in
        (forall text,
           dict_get d "collected" = Some (PyStr text) ->
           calls_once_no_retry client (AgSequential.FundamentalAnalyst_prompt (PyStr text))
             h w)
        /\ (dict_get d "collected" = None ->
            never_calls h w /\ snd (h w) = Raise (KeyError "collected"))
        /\ (invocations h w <= 1)%nat)
  /\ (forall self message (w : World CS AgSequential.Msg),
        let d := default [] (heap w !! AgSequential.InvestmentTask.data message) in
        let h := AgSequential.ReportGeneratorAgent_on_report client self message in
        (forall text,
           dict_get d "analysis" = Some (PyStr text) ->
           calls_once_no_retry client (AgSequential.ReportGenerator_prompt (PyStr text)) h w)
        /\ (dict_get d "analysis" = None ->
            never_calls h w /\ snd (h w) = Raise (KeyError "analysis"))
        /\ (invocations h w <= 1)%nat).
Proof.
  repeat apply conj.
  - intros agent self message w. apply call_then.
    intros [[| | |text| |]] w1; try reflexivity. simpl.
    destruct (str_in "BUY" (str_upper text)); [reflexivity|].
    destruct (str_in "SELL" (str_upper text)); reflexivity.
  - intros self message w. apply call_then. reflexivity.
  - intros self message w. apply call_then. reflexivity.
  - reflexivity.
  - intros self message w. apply call_then. reflexivity.
  - intros self message w h. subst h.
    pose proof (equity_calls self message w) as Hc.
    destruct (String.eqb_spec (AgHandoff.HandoffResponse.handler message) "specialist")
      as [Heq|Hne]; repeat apply conj.
    + intros text _ Htext. rewrite <- Htext. exact Hc.
    + intros Hn. contradiction.
    + rewrite (once_invocations _ _ _ Hc). lia.
    + intros text Heq. contradiction.
    + intros _. exact Hc.
    + rewrite (never_invocations _ _ Hc). lia.
  - intros self message w. unfold AgHandoff.HumanAdvisor_on_handoff.
    destruct (negb _); reflexivity.
  - intros self message w. apply call_then. reflexivity.
  - intros self message w d h. subst d h.
    pose proof (on_analyze_calls self message w) as Hc.
    destruct (dict_get _ "collected") as [collected|]; repeat apply conj.
    + intros text Htext. injection Htext as ->. exact Hc.
    + intros Hnone. discriminate Hnone.
    + rewrite (once_invocations _ _ _ Hc). lia.
    + intros text Htext. discriminate Htext.
    + intros _. exact Hc.
    + destruct Hc as [Hc _]. rewrite (never_invocations _ _ Hc). lia.
  - intros self message w d h. subst d h.
    pose proof (on_report_calls self message w) as Hc.
    destruct (dict_get _ "analysis") as [analysis|]; repeat apply conj.
    + intros text Htext. injection Htext as ->. exact Hc.
    + intros Hnone. discriminate Hnone.
    + rewrite (once_invocations _ _ _ Hc). lia.
    + intros text Htext. discriminate Htext.
    + intros _. exact Hc.
    + destruct Hc as [Hc _]. rewrite (never_invocations _ _ Hc). lia.
Qed.

End ServiceCalls.

(** C5, as stated, fails on the moderator of the group chat: it answers a
    [GroupMessage] without any call to the completion service. *)
Lemma moderator_makes_no_call :
  let self := {| agent_type := "moderator"; agent_key := "default" |} in
  let message := {| AgGroupchat.GroupMessage.text := "Should we invest in TechCorp Inc.?" |} in
  let w : World unit AgGroupchat.Msg := start tt ∅ in
  invocations (AgGroupchat.Moderator_on_proposal self message) w = 0%nat
  /\ invocations (AgGroupchat.Moderator_on_proposal self message) w <> 1%nat
  /\ length (published (fst (AgGroupchat.Moderator_on_proposal self message w))) = 1%nat.
Proof. repeat split. discriminate. Qed.

(** ** The sequential pipeline (ag_sequential.py) *)

Lemma dict_get_set_eq (d : pydict) (k : string) (v : pyval) :
  dict_get (dict_set d k v) k = Some v.
Proof.
  unfold dict_get, dict_set.
  induction d as [|[k' v'] d IH]; simpl.
  - rewrite String.eqb_refl. reflexivity.
  - destruct (String.eqb k' k) eqn:Hk; simpl; rewrite Hk; [reflexivity | exact IH].
Qed.

Lemma dict_get_set_ne (d : pydict) (k k' : string) (v : pyval) :
  k <> k' -> dict_get (dict_set d k v) k' = dict_get d k'.
Proof.
  intros Hne. unfold dict_get, dict_set.
  induction d as [|[k0 v0] d IH]; simpl.
  - destruct (String.eqb_spec k k'); [contradiction | reflexivity].
  - destruct (String.eqb_spec k0 k) as [->|Hk0]; simpl.
    + destruct (String.eqb_spec k k'); [contradiction | reflexivity].
    + rewrite IH. reflexivity.
Qed.

Section SequentialProperties.

Import AgSequential.

Context `{PyBuiltins} {CS : Type} (client : Client CS).

Implicit Types (w : World CS Msg) (message : InvestmentTask.t).

(** What [on_collect] does to the world. *)
Lemma on_collect_effect (self : AgentId) message w :
  let l := InvestmentTask.data message in
  let d := default [] (heap w !! l) in
  let answer := client (svc w) (DataCollector_prompt d) in
  let run := DataCollectorAgent_on_collect client self message w in
  let e := {| env_sender := Some self;
              env_topic := {| topic_type := "FundamentalAnalyst";
                              topic_source := agent_key self |};
              env_message := message |} in
  svc (fst run) = fst answer
  /\ calls (fst run) = (calls w ++ [DataCollector_prompt d])%list
  /\ stdout (fst run) = stdout w
  /\ errlog (fst run) = errlog w
  /\ match snd answer with
     | Ok result =>
         snd run = Ok tt
         /\ heap (fst run) = <[l := dict_set d "collected" (CreateResult.content result)]> (heap w)
         /\ queue (fst run) = (queue w ++ [e])%list
         /\ published (fst run) = (published w ++ [e])%list
     | Raise x =>
         snd run = Raise x
         /\ heap (fst run) = heap w
         /\ queue (fst run) = queue w
         /\ published (fst run) = published w
     end.
Proof.
  cbv zeta.
  unfold DataCollectorAgent_on_collect, bind, deref, create, setitem, publish_message.
  cbn [fst snd svc].
  destruct (client (svc w) _) as [s' [result|x]]; cbn; repeat split; reflexivity.
Qed.

(** What [on_analyze] does to the world. *)
Lemma on_analyze_effect (self : AgentId) message w :
  let l := InvestmentTask.data message in
  let d := default [] (heap w !! l) in
  let run := FundamentalAnalystAgent_on_analyze client self message w in
  let e := {| env_sender := Some self;
              env_topic := {| topic_type := "ReportGenerator";
                              topic_source := agent_key self |};
              env_message := message |} in
  stdout (fst run) = stdout w
  /\ errlog (fst run) = errlog w
  /\ match dict_get d "collected" with
     | None =>
         snd run = Raise (KeyError "collected")
         /\ svc (fst run) = svc w /\ calls (fst run) = calls w
         /\ heap (fst run) = heap w
         /\ queue (fst run) = queue w
         /\ published (fst run) = published w
     | Some collected =>
         let answer := client (svc w) (FundamentalAnalyst_prompt collected) in
         svc (fst run) = fst answer
         /\ calls (fst run) = (calls w ++ [FundamentalAnalyst_prompt collected])%list
         /\ match snd answer with
            | Ok result =>
                snd run = Ok tt
                /\ heap (fst run)
                   = <[l := dict_set d "analysis" (CreateResult.content result)]> (heap w)
                /\ queue (fst run) = (queue w ++ [e])%list
                /\ published (fst run) = (published w ++ [e])%list
            | Raise x =>
                snd run = Raise x
                /\ heap (fst run) = heap w
                /\ queue (fst run) = queue w
                /\ published (fst run) = published w
            end
     end.
Proof.
  cbv zeta.
  unfold FundamentalAnalystAgent_on_analyze, getitem, bind, deref, create, setitem,
    publish_message, from_option, ret, raise.
  cbn [fst snd svc].
  destruct (dict_get _ "collected") as [collected|]; cbn [fst snd svc];
    [|repeat split; reflexivity].
  destruct (client (svc w) _) as [s' [result|x]]; cbn; repeat split; reflexivity.
Qed.

(** What [on_report] does to the world. *)
Lemma on_report_effect (self : AgentId) message w :
  let l := InvestmentTask.data message in
  let d := default [] (heap w !! l) in
  let run := ReportGeneratorAgent_on_report client self message w in
  heap (fst run) = heap w
  /\ queue (fst run) = queue w
  /\ published (fst run) = published w
  /\ errlog (fst run) = errlog w
  /\ match dict_get d "analysis" with
     | None =>
         snd run = Raise (KeyError "analysis")
         /\ svc (fst run) = svc w /\ calls (fst run) = calls w
         /\ stdout (fst run) = stdout w
     | Some analysis =>
         let answer := client (svc w) (ReportGenerator_prompt analysis) in
         svc (fst run) = fst answer
         /\ calls (fst run) = (calls w ++ [ReportGenerator_prompt analysis])%list
         /\ match snd answer with
            | Ok result =>
                snd run = Ok tt
                /\ stdout (fst run)
                   = (stdout w
                      ++ [(nl ++ "Final Report for " ++ InvestmentTask.company message
                           ++ ":" ++ nl ++ py_str (CreateResult.content result))%string])%list
            | Raise x => snd run = Raise x /\ stdout (fst run) = stdout w
            end
     end.
Proof.
  cbv zeta.
  unfold ReportGeneratorAgent_on_report, getitem, bind, deref, create, print,
    from_option, ret, raise.
  cbn [fst snd svc].
  destruct (dict_get _ "analysis") as [analysis|]; cbn [fst snd svc];
    [|repeat split; reflexivity].
  destruct (client (svc w) _) as [s' [result|x]]; cbn; repeat split; reflexivity.
Qed.

(** Delivery to a stage against the stage as a transformation of the
    task's content. *)
Lemma deliver_collect (stub : list LLMMessage -> res CreateResult.t)
    (e : Envelope Msg) w (d : pydict) :
  deterministic client stub ->
  heap w !! InvestmentTask.data (env_message e) = Some d ->
  let w1 := deliver e w (DataCollectorAgent client) in
  let self := {| agent_type := "DataCollector"; agent_key := topic_source (env_topic e) |} in
  let e1 := {| env_sender := Some self;
               env_topic := {| topic_type := "FundamentalAnalyst";
                               topic_source := topic_source (env_topic e) |};
               env_message := env_message e |} in
  calls w1 = (calls w ++ [DataCollector_prompt d])%list
  /\ stdout w1 = stdout w
  /\ match stage_collect stub d with
     | Ok d1 =>
         heap w1 = <[InvestmentTask.data (env_message e) := d1]> (heap w)
         /\ queue w1 = (queue w ++ [e1])%list
         /\ published w1 = (published w ++ [e1])%list
         /\ errlog w1 = errlog w
     | Raise x =>
         heap w1 = heap w /\ queue w1 = queue w /\ published w1 = published w
         /\ errlog w1 = (errlog w ++ [x])%list
     end.
Proof.
  intros Hdet Hheap w1 self e1.
  destruct (deliver_handled e w (DataCollectorAgent client)
              (DataCollectorAgent_on_collect client self (env_message e)) eq_refl)
    as (_ & Hc & Hq & Hp & Ho & Hh & He).
  fold w1 in Hc, Hq, Hp, Ho, Hh, He.
  pose proof (on_collect_effect self (env_message e) w) as Heff. cbv zeta in Heff.
  rewrite Hheap in Heff. cbn [default from_option id] in Heff.
  destruct Heff as (_ & Ec & Eo & Ee & Ecase).
  rewrite Hdet in Ecase. unfold stage_collect.
  rewrite Hc, Ho, Hh, Hq, Hp, He, Ec, Eo, Ee.
  split; [reflexivity|]. split; [reflexivity|].
  destruct (stub (DataCollector_prompt d)) as [result|x];
    destruct Ecase as (-> & -> & -> & ->); rewrite ?app_nil_r; repeat split; reflexivity.
Qed.

Lemma deliver_analyze (stub : list LLMMessage -> res CreateResult.t)
    (e : Envelope Msg) w (d : pydict) :
  deterministic client stub ->
  heap w !! InvestmentTask.data (env_message e) = Some d ->
  let w1 := deliver e w (FundamentalAnalystAgent client) in
  let self :=
    {| agent_type := "FundamentalAnalyst"; agent_key := topic_source (env_topic e) |} in
  let e1 := {| env_sender := Some self;
               env_topic := {| topic_type := "ReportGenerator";
                               topic_source := topic_source (env_topic e) |};
               env_message := env_message e |} in
  calls w1
  = (calls w ++ match dict_get d "collected" with
                | Some collected => [FundamentalAnalyst_prompt collected]
                | None => []
                end)%list
  /\ stdout w1 = stdout w
  /\ match stage_analyze stub d with
     | Ok d1 =>
         heap w1 = <[InvestmentTask.data (env_message e) := d1]> (heap w)
         /\ queue w1 = (queue w ++ [e1])%list
         /\ published w1 = (published w ++ [e1])%list
         /\ errlog w1 = errlog w
     | Raise x =>
         heap w1 = heap w /\ queue w1 = queue w /\ published w1 = published w
         /\ errlog w1 = (errlog w ++ [x])%list
     end.
Proof.
  intros Hdet Hheap w1 self e1.
  destruct (deliver_handled e w (FundamentalAnalystAgent client)
              (FundamentalAnalystAgent_on_analyze client self (env_message e)) eq_refl)
    as (_ & Hc & Hq & Hp & Ho & Hh & He).
  fold w1 in Hc, Hq, Hp, Ho, Hh, He.
  pose proof (on_analyze_effect self (env_message e) w) as Heff. cbv zeta in Heff.
  rewrite Hheap in Heff. cbn [default from_option id] in Heff.
  destruct Heff as (Eo & Ee & Ecase).
  unfold stage_analyze.
  rewrite Hc, Ho, Hh, Hq, Hp, He, Eo, Ee.
  destruct (dict_get d "collected") as [collected|].
  - destruct Ecase as (_ & -> & Ecase). rewrite Hdet in Ecase.
    split; [reflexivity|]. split; [reflexivity|].
    destruct (stub (FundamentalAnalyst_prompt collected)) as [result|x];
      destruct Ecase as (-> & -> & -> & ->); rewrite ?app_nil_r; repeat split; reflexivity.
  - destruct Ecase as (-> & _ & -> & -> & -> & ->).
    rewrite ?app_nil_r; repeat split; reflexivity.
Qed.

Lemma deliver_report (stub : list LLMMessage -> res CreateResult.t)
    (e : Envelope Msg) w (d : pydict) :
  deterministic client stub ->
  heap w !! InvestmentTask.data (env_message e) = Some d ->
  let w1 := deliver e w (ReportGeneratorAgent client) in
  calls w1
  = (calls w ++ match dict_get d "analysis" with
                | Some analysis => [ReportGenerator_prompt analysis]
                | None => []
                end)%list
  /\ heap w1 = heap w /\ queue w1 = queue w /\ published w1 = published w
  /\ match stage_report stub (InvestmentTask.company (env_message e)) d with
     | Ok line => stdout w1 = (stdout w ++ [line])%list /\ errlog w1 = errlog w
     | Raise x => stdout w1 = stdout w /\ errlog w1 = (errlog w ++ [x])%list
     end.
Proof.
  intros Hdet Hheap w1.
  set (self := instance_of (ReportGeneratorAgent client) e).
  destruct (deliver_handled e w (ReportGeneratorAgent client)
              (ReportGeneratorAgent_on_report client self (env_message e)) eq_refl)
    as (_ & Hc & Hq & Hp & Ho & Hh & He).
  fold w1 in Hc, Hq, Hp, Ho, Hh, He.
  pose proof (on_report_effect self (env_message e) w) as Heff. cbv zeta in Heff.
  rewrite Hheap in Heff. cbn [default from_option id] in Heff.
  destruct Heff as (Eh & Eq & Ep & Ee & Ecase).
  unfold stage_report.
  rewrite Hc, Ho, Hh, Hq, Hp, He, Eh, Eq, Ep, Ee.
  destruct (dict_get d "analysis") as [analysis|].
  - destruct Ecase as (_ & -> & Ecase). rewrite Hdet in Ecase.
    split; [reflexivity|]. do 3 (split; [reflexivity|]).
    destruct (stub (ReportGenerator_prompt analysis)) as [result|x];
      destruct Ecase as (-> & ->); rewrite ?app_nil_r; repeat split; reflexivity.
  - destruct Ecase as (-> & _ & -> & ->).
    rewrite ?app_nil_r; repeat split; reflexivity.
Qed.

(** Who receives what in the pipeline. *)
Lemma receivers_collect (e : Envelope Msg) :
  env_sender e = None ->
  env_topic e = {| topic_type := "DataCollector"; topic_source := "default" |} ->
  filter (fun r => receives e r = true) (registered client) = [DataCollectorAgent client].
Proof. destruct e as [sender topic task]. simpl. intros -> ->. reflexivity. Qed.

Lemma receivers_analyze (e : Envelope Msg) :
  env_sender e = Some {| agent_type := "DataCollector"; agent_key := "default" |} ->
  env_topic e = {| topic_type := "FundamentalAnalyst"; topic_source := "default" |} ->
  filter (fun r => receives e r = true) (registered client)
  = [FundamentalAnalystAgent client].
Proof. destruct e as [sender topic task]. simpl. intros -> ->. reflexivity. Qed.

Lemma receivers_report (e : Envelope Msg) :
  env_sender e = Some {| agent_type := "FundamentalAnalyst"; agent_key := "default" |} ->
  env_topic e = {| topic_type := "ReportGenerator"; topic_source := "default" |} ->
  filter (fun r => receives e r = true) (registered client)
  = [ReportGeneratorAgent client].
Proof. destruct e as [sender topic task]. simpl. intros -> ->. reflexivity. Qed.

(** The run of the pipeline from a seed task whose dict holds [d]: what
    is called, published, printed and logged is fixed by the stub, the
    company and [d]. *)
Lemma pipeline_run (stub : list LLMMessage -> res CreateResult.t) (company : string)
    (d : pydict) :
  deterministic client stub ->
  exists (C : list (list LLMMessage)) (P : list TopicId) (dfin : pydict),
    forall (l : loc) (fuel : nat) w,
      let task := {| InvestmentTask.company := company; InvestmentTask.data := l |} in
      let seed := {| env_sender := None;
                     env_topic := {| topic_type := "DataCollector";
                                     topic_source := "default" |};
                     env_message := task |} in
      (3 <= fuel)%nat ->
      queue w = [seed] ->
      heap w !! l = Some d ->
      exists w' new,
        stop_when_idle fuel (registered client) w = Some w'
        /\ calls w' = (calls w ++ C)%list
        /\ published w' = (published w ++ new)%list
        /\ map env_topic new = P
        /\ Forall (fun e => env_message e = task) new
        /\ heap w' !! l = Some dfin
        /\ (forall l', l' <> l -> heap w' !! l' = heap w !! l')
        /\ stdout w'
           = (stdout w ++ match pipeline stub company d with
                          | Ok line => [line]
                          | Raise _ => []
                          end)%list
        /\ errlog w'
           = (errlog w ++ match pipeline stub company d with
                          | Ok _ => []
                          | Raise x => [x]
                          end)%list.
Proof.
  intros Hdet. unfold pipeline, and_then.
  destruct (stage_collect stub d) as [d1|x1] eqn:H1;
    [destruct (stage_analyze stub d1) as [d2|x2] eqn:H2|];
    do 3 eexists; intros l fuel w Hfuel Hq Hheap;
    set (task := {| InvestmentTask.company := company; InvestmentTask.data := l |}) in *;
    set (seed := {| env_sender := None; env_topic := _; env_message := task |}) in *;
    (destruct fuel as [|[|[|fuel]]]; [lia|lia|lia|]).
  - (* all three stages run *)
    rewrite (stop_when_idle_cons _ _ w seed [] Hq), (receivers_collect seed) by reflexivity.
    cbn [fold_left].
    match goal with |- context [deliver seed ?x _] => set (w0 := x) end.
    pose proof (deliver_collect stub seed w0 d Hdet Hheap) as S1.
    cbv zeta in S1. rewrite H1 in S1.
    set (w1 := deliver seed w0 (DataCollectorAgent client)) in *.
    destruct S1 as (C1 & O1 & Hh1 & Q1 & P1 & E1).
    cbn [env_message env_topic topic_source calls stdout heap queue published errlog w0
           InvestmentTask.data seed task app] in C1, O1, Hh1, Q1, P1, E1.
    rewrite (stop_when_idle_cons _ _ w1 _ [] Q1), receivers_analyze by reflexivity.
    cbn [fold_left].
    match goal with |- context [deliver ?e ?x (FundamentalAnalystAgent client)] =>
      set (e1 := e) in *; set (w1' := x) end.
    assert (Hheap1 : heap w1' !! InvestmentTask.data (env_message e1) = Some d1).
    { cbn [heap w1' env_message e1 InvestmentTask.data task]. rewrite Hh1.
      apply lookup_insert_eq. }
    pose proof (deliver_analyze stub e1 w1' d1 Hdet Hheap1) as S2.
    cbv zeta in S2. rewrite H2 in S2.
    set (w2 := deliver e1 w1' (FundamentalAnalystAgent client)) in *.
    destruct S2 as (C2 & O2 & Hh2 & Q2 & P2 & E2).
    cbn [env_message env_topic topic_source calls stdout heap queue published errlog w1'
           e1 InvestmentTask.data task app] in C2, O2, Hh2, Q2, P2, E2.
    rewrite (stop_when_idle_cons _ _ w2 _ [] Q2), receivers_report by reflexivity.
    cbn [fold_left].
    match goal with |- context [deliver ?e ?x (ReportGeneratorAgent client)] =>
      set (e2 := e) in *; set (w2' := x) end.
    assert (Hheap2 : heap w2' !! InvestmentTask.data (env_message e2) = Some d2).
    { cbn [heap w2' env_message e2 InvestmentTask.data task]. rewrite Hh2.
      apply lookup_insert_eq. }
    pose proof (deliver_report stub e2 w2' d2 Hdet Hheap2) as S3.
    cbv zeta in S3.
    set (w3 := deliver e2 w2' (ReportGeneratorAgent client)) in *.
    destruct S3 as (C3 & Hh3 & Q3 & P3 & S3).
    cbn [env_message env_topic topic_source calls stdout heap queue published errlog w2'
           e2 InvestmentTask.data InvestmentTask.company task app] in C3, Hh3, Q3, P3, S3.
    rewrite (stop_when_idle_nil _ _ w3 Q3).
    exists w3, [e1; e2].
    split; [reflexivity|].
    split; [rewrite C3, C2, C1, <- !app_assoc; reflexivity|].
    split; [rewrite P3, P2, P1, <- !app_assoc; reflexivity|].
    split; [cbn [map env_topic e1 e2 seed topic_source]; reflexivity|].
    split; [repeat constructor|].
    split; [rewrite Hh3, Hh2; apply lookup_insert_eq|].
    split.
    { intros l' Hl'. rewrite Hh3, Hh2, Hh1, !lookup_insert_ne by congruence. reflexivity. }
    destruct (stage_report stub company d2) as [line|x3]; destruct S3 as [-> ->];
      rewrite O2, O1, E2, E1, ?app_nil_r; split; reflexivity.
  - (* the analyst stage fails *)
    rewrite (stop_when_idle_cons _ _ w seed [] Hq), (receivers_collect seed) by reflexivity.
    cbn [fold_left].
    match goal with |- context [deliver seed ?x _] => set (w0 := x) end.
    pose proof (deliver_collect stub seed w0 d Hdet Hheap) as S1.
    cbv zeta in S1. rewrite H1 in S1.
    set (w1 := deliver seed w0 (DataCollectorAgent client)) in *.
    destruct S1 as (C1 & O1 & Hh1 & Q1 & P1 & E1).
    cbn [env_message env_topic topic_source calls stdout heap queue published errlog w0
           InvestmentTask.data seed task app] in C1, O1, Hh1, Q1, P1, E1.
    rewrite (stop_when_idle_cons _ _ w1 _ [] Q1), receivers_analyze by reflexivity.
    cbn [fold_left].
    match goal with |- context [deliver ?e ?x (FundamentalAnalystAgent client)] =>
      set (e1 := e) in *; set (w1' := x) end.
    assert (Hheap1 : heap w1' !! InvestmentTask.data (env_message e1) = Some d1).
    { cbn [heap w1' env_message e1 InvestmentTask.data task]. rewrite Hh1.
      apply lookup_insert_eq. }
    pose proof (deliver_analyze stub e1 w1' d1 Hdet Hheap1) as S2.
    cbv zeta in S2. rewrite H2 in S2.
    set (w2 := deliver e1 w1' (FundamentalAnalystAgent client)) in *.
    destruct S2 as (C2 & O2 & Hh2 & Q2 & P2 & E2).
    cbn [env_message env_topic topic_source calls stdout heap queue published errlog w1'
           e1 InvestmentTask.data task app] in C2, O2, Hh2, Q2, P2, E2.
    rewrite (stop_when_idle_nil _ _ w2 Q2).
    exists w2, [e1].
    split; [reflexivity|].
    split; [rewrite C2, C1, <- !app_assoc; reflexivity|].
    split; [rewrite P2, P1; reflexivity|].
    split; [cbn [map env_topic e1 seed topic_source]; reflexivity|].
    split; [repeat constructor|].
    split; [rewrite Hh2, Hh1; apply lookup_insert_eq|].
    split.
    { intros l' Hl'. rewrite Hh2, Hh1, !lookup_insert_ne by congruence. reflexivity. }
    rewrite O2, O1, E2, E1, ?app_nil_r; split; reflexivity.
  - (* the collector stage fails *)
    rewrite (stop_when_idle_cons _ _ w seed [] Hq), (receivers_collect seed) by reflexivity.
    cbn [fold_left].
    match goal with |- context [deliver seed ?x _] => set (w0 := x) end.
    pose proof (deliver_collect stub seed w0 d Hdet Hheap) as S1.
    cbv zeta in S1. rewrite H1 in S1.
    set (w1 := deliver seed w0 (DataCollectorAgent client)) in *.
    destruct S1 as (C1 & O1 & Hh1 & Q1 & P1 & E1).
    cbn [env_message env_topic topic_source calls stdout heap queue published errlog w0
           InvestmentTask.data seed task app] in C1, O1, Hh1, Q1, P1, E1.
    rewrite (stop_when_idle_nil _ _ w1 Q1).
    exists w1, [].
    split; [reflexivity|].
    split; [rewrite C1; reflexivity|].
    split; [rewrite P1, app_nil_r; reflexivity|].
    split; [reflexivity|].
    split; [constructor|].
    split; [rewrite Hh1; exact Hheap|].
    split.
    { intros l' Hl'. rewrite Hh1. reflexivity. }
    rewrite O1, E1, ?app_nil_r; split; reflexivity.
Qed.

(** Every published envelope carries the one task object, so each is seen
    with the dict's final content. *)
Lemma view_same_task w (task : InvestmentTask.t) (dfin : pydict)
    (es : list (Envelope Msg)) :
  Forall (fun e => env_message e = task) es ->
  heap w !! InvestmentTask.data task = Some dfin ->
  map (view w) es
  = map (fun t => (t, InvestmentTask.company task, dfin)) (map env_topic es).
Proof.
  intros Hall Hheap. induction Hall as [|e es He _ IH]; [reflexivity|].
  simpl. rewrite IH. unfold view at 1. rewrite He, Hheap. reflexivity.
Qed.

(** The history of a run is fixed by the stub, the company and the dict
    literal: it does not depend on the state of the service nor on what
    else lives in the heap. *)
Lemma run_sequential_history (stub : list LLMMessage -> res CreateResult.t)
    (company : string) (data : pydict) :
  deterministic client stub ->
  exists hist,
    forall (fuel : nat) (s : CS) (h : gmap loc pydict),
      (3 <= fuel)%nat ->
      exists w,
        run_sequential client company data fuel s h = Some w
        /\ history w = hist
        /\ stdout w = match pipeline stub company data with
                      | Ok line => [line]
                      | Raise _ => []
                      end
        /\ errlog w = match pipeline stub company data with
                      | Ok _ => []
                      | Raise x => [x]
                      end.
Proof.
  intros Hdet.
  destruct (pipeline_run stub company data Hdet) as (C & P & dfin & Hrun).
  exists (C,
          map (fun t => (t, company, dfin))
            ({| topic_type := "DataCollector"; topic_source := "default" |} :: P),
          match pipeline stub company data with
          | Ok line => [line]
          | Raise _ => []
          end,
          match pipeline stub company data with
          | Ok _ => []
          | Raise x => [x]
          end).
  intros fuel s h Hfuel.
  unfold run_sequential, new_dict, publish_message.
  cbv beta iota zeta.
  set (l := fresh (dom (heap (start s h)))).
  match goal with |- context [stop_when_idle fuel _ ?x] => set (w0 := x) end.
  destruct (Hrun l fuel w0 Hfuel eq_refl) as (w & new & Hw & Hc & Hp & Ht & Hall & Hh & _ & Ho & He).
  { apply lookup_insert_eq. }
  exists w. split; [exact Hw|].
  split; [|split; [exact Ho | exact He]].
  unfold history. rewrite Hc, Hp, Ho, He.
  rewrite (view_same_task w {| InvestmentTask.company := company;
                               InvestmentTask.data := l |} dfin).
  - rewrite map_app, Ht. reflexivity.
  - apply Forall_app. split; [repeat constructor | exact Hall].
  - exact Hh.
Qed.

(** C9.  With a deterministic stub as completion service (it answers with
    text or fails, as a function of the turns), two runs of the pipeline on
    the same initial message (the same company and dict literal) have the
    same history, whatever the state of the service and of the heap they
    start in; what is printed, or the exception logged, is the three stages
    applied in order to the initial content. *)
Theorem sequential_replay_same_history (stub : list LLMMessage -> res CreateResult.t)
    (company : string) (data : pydict) (fuel fuel' : nat) (s s' : CS)
    (h h' : gmap loc pydict) :
  deterministic client stub ->
  text_only stub ->
  (3 <= fuel)%nat ->
  (3 <= fuel')%nat ->
  exists w w',
    run_sequential client company data fuel s h = Some w
    /\ run_sequential client company data fuel' s' h' = Some w'
    /\ history w = history w'
    /\ stdout w = match and_then (and_then (stage_collect stub data) (stage_analyze stub))
                               (stage_report stub company) with
                  | Ok line => [line]
                  | Raise _ => []
                  end
    /\ errlog w = match and_then (and_then (stage_collect stub data) (stage_analyze stub))
                               (stage_report stub company) with
                  | Ok _ => []
                  | Raise x => [x]
                  end.
Proof.
  intros Hdet _ Hfuel Hfuel'.
  destruct (run_sequential_history stub company data Hdet) as (hist & Hhist).
  destruct (Hhist fuel s h Hfuel) as (w & Hw & Hh & Ho & He).
  destruct (Hhist fuel' s' h' Hfuel') as (w' & Hw' & Hh' & _).
  exists w, w'. repeat split; try assumption. congruence.
Qed.

(** Nothing was published, so nothing is among the new messages. *)
Ltac nothing_new Hpub Hnew He :=
  match type of Hnew with
  | _ = (?old ++ ?new)%list =>
      assert (new = []) as ->
        by (apply (app_inv_head old); rewrite <- Hnew, app_nil_r; exact Hpub);
      inversion He
  end.

(** C1 (amended).  A pipeline stage does not build a new message: when the
    service answers, [on_collect] stores the answer under "collected" and
    [on_analyze] under "analysis" in the dict of the task it received, and
    publishes that same task.  Nothing else is written: the other keys of
    the dict and every other dict stay as they were, and [on_report] writes
    nothing.  The handlers of the fan-out, handoff and group-chat scripts
    write to no dict at all; what they publish is newly built. *)
Theorem stages_write_only_their_key :
  (forall self message w,
     let l := InvestmentTask.data message in
     let d := default [] (heap w !! l) in
     let w' := fst (DataCollectorAgent_on_collect client self message w) in
     (forall l', l' <> l -> heap w' !! l' = heap w !! l')
     /\ (forall k, k <> "collected" -> dict_get (default [] (heap w' !! l)) k = dict_get d k)
     /\ (forall new e, published w' = (published w ++ new)%list -> e ∈ new ->
           env_message e = message)
     /\ (forall result,
           snd (client (svc w) (DataCollector_prompt d)) = Ok result ->
           heap w' !! l = Some (dict_set d "collected" (CreateResult.content result))
           /\ map env_message (published w') = (map env_message (published w) ++ [message])%list))
  /\ (forall self message w,
        let l := InvestmentTask.data message in
        let d := default [] (heap w !! l) in
        let w' := fst (FundamentalAnalystAgent_on_analyze client self message w) in
        (forall l', l' <> l -> heap w' !! l' = heap w !! l')
        /\ (forall k, k <> "analysis" -> dict_get (default [] (heap w' !! l)) k = dict_get d k)
        /\ (forall new e, published w' = (published w ++ new)%list -> e ∈ new ->
              env_message e = message)
        /\ (forall text result,
              dict_get d "collected" = Some (PyStr text) ->
              snd (client (svc w) (FundamentalAnalyst_prompt (PyStr text))) = Ok result ->
              heap w' !! l = Some (dict_set d "analysis" (CreateResult.content result))
              /\ map env_message (published w')
                 = (map env_message (published w) ++ [message])%list))
  /\ (forall self message w,
        heap (fst (ReportGeneratorAgent_on_report client self message w)) = heap w
        /\ published (fst (ReportGeneratorAgent_on_report client self message w))
           = published w)
  /\ (forall agent self m (w : World CS AgConcurrent.Msg),
        heap (fst (AgConcurrent.analyze client agent self m w)) = heap w)
  /\ (forall self m (w : World CS AgHandoff.Msg),
        heap (fst (AgHandoff.TriageAdvisor_on_request client self m w)) = heap w)
  /\ (forall self m (w : World CS AgHandoff.Msg),
        heap (fst (AgHandoff.EquitySpecialist_on_handoff client self m w)) = heap w)
  /\ (forall self m (w : World CS AgHandoff.Msg),
        heap (fst (AgHandoff.HumanAdvisor_on_handoff self m w)) = heap w)
  /\ (forall self m (w : World CS AgGroupchat.Msg),
        heap (fst (AgGroupchat.Moderator_on_proposal self m w)) = heap w)
  /\ (forall self m (w : World CS AgGroupchat.Msg),
        heap (fst (AgGroupchat.FundamentalAnalyst_on_discussion client self m w))
        = heap w)
  /\ (forall self m (w : World CS AgGroupchat.Msg),
        heap (fst (AgGroupchat.RiskManager_on_discussion client self m w)) = heap w).
Proof.
  repeat apply conj.
  - intros self message w l d w'.
    destruct (on_collect_effect self message w) as (_ & _ & _ & _ & Hcase).
    fold l d w' in Hcase.
    destruct (snd (client (svc w) (DataCollector_prompt d))) as [result|x] eqn:Hanswer.
    + destruct Hcase as (_ & Hheap & _ & Hpub). repeat apply conj.
      * intros l' Hl'. rewrite Hheap. apply lookup_insert_ne. congruence.
      * intros k Hk. rewrite Hheap, lookup_insert_eq. simpl.
        apply dict_get_set_ne. congruence.
      * intros new e Hnew He. rewrite Hpub in Hnew. apply app_inv_head in Hnew.
        subst new. apply list_elem_of_singleton in He. subst e. reflexivity.
      * intros r Hr. injection Hr as <-. rewrite Hheap, lookup_insert_eq, Hpub, map_app.
        split; reflexivity.
    + destruct Hcase as (_ & Hheap & _ & Hpub). repeat apply conj.
      * intros l' _. rewrite Hheap. reflexivity.
      * intros k _. rewrite Hheap. reflexivity.
      * intros new e Hnew He. nothing_new Hpub Hnew He.
      * intros r Hr. discriminate Hr.
  - intros self message w l d w'.
    destruct (on_analyze_effect self message w) as (_ & _ & Hcase).
    fold l d w' in Hcase.
    destruct (dict_get d "collected") as [collected|] eqn:Hget;
      [destruct Hcase as (_ & _ & Hcase);
       destruct (snd (client (svc w) (FundamentalAnalyst_prompt collected)))
         as [result|x] eqn:Hanswer|].
    + destruct Hcase as (_ & Hheap & _ & Hpub). repeat apply conj.
      * intros l' Hl'. rewrite Hheap. apply lookup_insert_ne. congruence.
      * intros k Hk. rewrite Hheap, lookup_insert_eq. simpl.
        apply dict_get_set_ne. congruence.
      * intros new e Hnew He. rewrite Hpub in Hnew. apply app_inv_head in Hnew.
        subst new. apply list_elem_of_singleton in He. subst e. reflexivity.
      * intros c r Hc Hr. injection Hc as ->. rewrite Hanswer in Hr.
        injection Hr as <-. rewrite Hheap, lookup_insert_eq, Hpub, map_app.
        split; reflexivity.
    + destruct Hcase as (_ & Hheap & _ & Hpub). repeat apply conj.
      * intros l' _. rewrite Hheap. reflexivity.
      * intros k _. rewrite Hheap. reflexivity.
      * intros new e Hnew He. nothing_new Hpub Hnew He.
      * intros c r Hc Hr. injection Hc as ->. rewrite Hanswer in Hr. discriminate Hr.
    + destruct Hcase as (_ & _ & _ & Hheap & _ & Hpub). repeat apply conj.
      * intros l' _. rewrite Hheap. reflexivity.
      * intros k _. rewrite Hheap. reflexivity.
      * intros new e Hnew He. nothing_new Hpub Hnew He.
      * intros c r Hc. discriminate Hc.
  - intros self message w.
    destruct (on_report_effect self message w) as (Hheap & _ & Hpub & _).
    split; assumption.
  - intros agent self m w. unfold AgConcurrent.analyze, bind, create.
    destruct (client (svc w) _) as [s' [[[| | |text| |]]|x]]; try reflexivity.
    simpl. destruct (str_in "BUY" (str_upper text)); [reflexivity|].
    destruct (str_in "SELL" (str_upper text)); reflexivity.
  - intros self m w. unfold AgHandoff.TriageAdvisor_on_request, bind, create.
    destruct (client (svc w) _) as [s' [result|x]]; reflexivity.
  - intros self m w. unfold AgHandoff.EquitySpecialist_on_handoff, bind, create.
    destruct (negb _); [reflexivity|].
    destruct (client (svc w) _) as [s' [result|x]]; reflexivity.
  - intros self m w. unfold AgHandoff.HumanAdvisor_on_handoff.
    destruct (negb _); reflexivity.
  - reflexivity.
  - intros self m w. unfold AgGroupchat.FundamentalAnalyst_on_discussion, bind, create.
    destruct (client (svc w) _) as [s' [result|x]]; reflexivity.
  - intros self m w. unfold AgGroupchat.RiskManager_on_discussion, bind, create.
    destruct (client (svc w) _) as [s' [result|x]]; reflexivity.
Qed.

End SequentialProperties.

(** C1, as stated, fails on the data collector: it writes the service's
    answer into the dict of the task it received and publishes that very
    task. *)
Lemma collector_writes_into_received_task :
  let l : loc := 1%positive in
  let d := [("sector", PyStr "Renewable Energy"); ("market_cap", PyStr "$5B")] in
  let task :=
    {| AgSequential.InvestmentTask.company := "GreenTech Solutions Inc.";
       AgSequential.InvestmentTask.data := l |} in
  let self := {| agent_type := "DataCollector"; agent_key := "default" |} in
  let w : World unit AgSequential.Msg := start tt (<[ l := d ]> ∅) in
  let w' :=
    fst (AgSequential.DataCollectorAgent_on_collect (H := AsciiPy.builtins)
           (Stub.always "validated") self task w) in
  heap w !! l = Some d
  /\ heap w' !! l = Some (d ++ [("collected", PyStr "validated")])%list
  /\ heap w' !! l <> heap w !! l
  /\ map env_message (published w') = [task].
Proof.
  cbv zeta. repeat apply conj; try (vm_compute; reflexivity).
  vm_compute. discriminate.
Qed.

(** ** Handoff orchestration settings (sk_handoff.py) *)

Section SkHandoffProperties.

Import SkHandoff.

Lemma back_and_forth_permitted (n : nat) :
  session orchestration (back_and_forth n) = true.
Proof.
  unfold session. change (first_agent orchestration) with "TriageAdvisor".
  induction n as [|n IH]; [reflexivity|].
  cbn [back_and_forth permitted].
  change (may_hand_off orchestration "TriageAdvisor" "EquitySpecialist") with true.
  change (may_hand_off orchestration "EquitySpecialist" "TriageAdvisor") with true.
  exact IH.
Qed.

Lemma back_and_forth_length (n : nat) : length (back_and_forth n) = (2 * n)%nat.
Proof. induction n as [|n IH]; simpl; [reflexivity | rewrite IH; lia]. Qed.

(** Nothing is permitted after a handoff to the human advisor. *)
Lemma human_is_terminal (current : string) (before after : list string) :
  permitted orchestration current (before ++ "HumanAdvisor" :: after) = true ->
  after = [].
Proof.
  revert current. induction before as [|b before IH]; intros current Hp.
  - destruct after as [|a after]; [reflexivity|].
    cbn [app permitted] in Hp.
    apply andb_true_iff in Hp as [_ Hp]. apply andb_true_iff in Hp as [Hp _].
    unfold may_hand_off in Hp. apply bool_decide_eq_true in Hp.
    change (targets (handoffs_of orchestration) "HumanAdvisor") with (@nil string) in Hp.
    inversion Hp.
  - cbn [app permitted] in Hp. apply andb_true_iff in Hp as [_ Hp].
    exact (IH b Hp).
Qed.

(** C7 (amended).  The settings declare the handoffs TriageAdvisor ->
    EquitySpecialist, TriageAdvisor -> HumanAdvisor and EquitySpecialist ->
    TriageAdvisor, and no hop bound: triage and the equity specialist may
    hand the conversation back and forth any number of times, so sessions
    of every length are permitted.  Only a handoff to HumanAdvisor, which
    has no outgoing handoff, is certain to be the last one. *)
Theorem handoff_cycle_without_hop_bound :
  handoffs_of orchestration
  = [("TriageAdvisor",
      [("EquitySpecialist", "Equity requests"); ("HumanAdvisor", "Complex cases")]);
     ("EquitySpecialist", [("TriageAdvisor", "Return to triage")])]
  /\ map name (members orchestration) = ["TriageAdvisor"; "EquitySpecialist"; "HumanAdvisor"]
  /\ session orchestration ["EquitySpecialist"; "TriageAdvisor"] = true
  /\ (forall n,
        session orchestration (back_and_forth n) = true
        /\ length (back_and_forth n) = (2 * n)%nat)
  /\ (forall before after,
        session orchestration (before ++ "HumanAdvisor" :: after) = true -> after = []).
Proof.
  split; [reflexivity|]. split; [reflexivity|]. split; [reflexivity|].
  split.
  - intros n. split; [apply back_and_forth_permitted | apply back_and_forth_length].
  - intros before after. apply human_is_terminal.
Qed.

(** C7, as stated, fails on the script's settings: no number bounds the
    hops of the sessions they permit. *)
Lemma handoff_hops_unbounded :
  session orchestration (back_and_forth 50) = true
  /\ length (back_and_forth 50) = 100%nat
  /\ ~ exists bound : nat,
        forall hops, session orchestration hops = true -> (length hops <= bound)%nat.
Proof.
  split; [reflexivity|]. split; [reflexivity|].
  intros [bound Hbound].
  pose proof (Hbound (back_and_forth (S bound)) (back_and_forth_permitted (S bound))) as Hl.
  rewrite back_and_forth_length in Hl. lia.
Qed.

End SkHandoffProperties.

(** ** Round-robin group chat (sk_groupchat.py) *)

Section SkGroupchatProperties.

Import SkGroupchat.

Lemma after_S (agents : list ChatCompletionAgent) (k : nat) :
  after agents (S k) = turn agents (after agents k).
Proof. reflexivity. Qed.

(** After [k] turns the cursor is at [k mod n], [k] replies are recorded,
    and the [i]-th reply is from the member at [i mod n]. *)
Lemma after_invariant (agents : list ChatCompletionAgent) (k : nat) :
  agents <> [] ->
  cursor (after agents k) = (k mod length agents)%nat
  /\ length (turns (after agents k)) = k
  /\ forall i, (i < k)%nat ->
       turns (after agents k) !! i = name <$> agents !! (i mod length agents)%nat.
Proof.
  intros Hne.
  assert (Hn : length agents <> 0%nat) by (destruct agents; [congruence | discriminate]).
  induction k as [|k (Hc & Hl & Hi)].
  - split; [symmetry; apply Nat.Div0.mod_0_l|]. split; [reflexivity|]. intros i Hlt. lia.
  - rewrite after_S. unfold turn. rewrite Hc.
    destruct (agents !! (k mod length agents)%nat) as [a|] eqn:Ha.
    + cbn [cursor turns]. split; [|split].
      * replace (S k) with (k + 1)%nat by lia.
        rewrite <- (Nat.Div0.add_mod_idemp_l k 1). f_equal. lia.
      * rewrite length_app, Hl. simpl. lia.
      * intros i Hlt. destruct (decide (i = k)) as [->|Hik].
        -- rewrite lookup_app_r by lia. rewrite Hl, Nat.sub_diag, Ha. reflexivity.
        -- rewrite lookup_app_l by lia. apply Hi. lia.
    + apply lookup_ge_None in Ha.
      pose proof (Nat.mod_upper_bound k (length agents) Hn). lia.
Qed.

Lemma after_nobody (k : nat) : after [] k = opening.
Proof. induction k as [|k IH]; [reflexivity|]. rewrite after_S, IH. reflexivity. Qed.

(** C8.  A round-robin session never has more than
    [max_rounds * len(agents)] turns, at no point of the session, and the
    [i]-th turn is taken by the member at position [i mod len(agents)];
    the committee of three with [max_rounds = 5] takes at most 15 turns,
    in the order Moderator, FundamentalAnalyst, RiskManager, repeated, of
    which the transcript recorded in the script is the beginning. *)
Theorem round_robin_turns (o : GroupChatOrchestration) :
  let agents := orchestration_members o in
  let budget := (max_rounds (manager o) * length agents)%nat in
  (length (turns (run o)) <= budget)%nat
  /\ (forall k, (k <= budget)%nat ->
        (length (turns (after agents k)) <= budget)%nat
        /\ turns (after agents k) `prefix_of` turns (run o))
  /\ (forall i a, turns (run o) !! i = Some a ->
        name <$> agents !! (i mod length agents)%nat = Some a)
  /\ turn_budget orchestration = 15%nat
  /\ turns (run orchestration)
     = ["Moderator"; "FundamentalAnalyst"; "RiskManager";
        "Moderator"; "FundamentalAnalyst"; "RiskManager";
        "Moderator"; "FundamentalAnalyst"; "RiskManager";
        "Moderator"; "FundamentalAnalyst"; "RiskManager";
        "Moderator"; "FundamentalAnalyst"; "RiskManager"]
  /\ recorded_transcript `prefix_of` turns (run orchestration).
Proof.
  intros agents budget.
  assert (Hgen : forall k, (length (turns (after agents k)) <= k)%nat
                           /\ forall i a, turns (after agents k) !! i = Some a ->
                                name <$> agents !! (i mod length agents)%nat = Some a).
  { intros k. destruct agents as [|a0 agents'] eqn:Hagents.
    - rewrite after_nobody. split; [simpl; lia|]. intros i a Hi. inversion Hi.
    - destruct (after_invariant (a0 :: agents') k ltac:(discriminate)) as (_ & Hl & Hi).
      split; [lia|]. intros i a Ha.
      rewrite <- Hi; [exact Ha|]. apply lookup_lt_Some in Ha. lia. }
  assert (Hprefix : forall j k, (j <= k)%nat ->
                      turns (after agents j) `prefix_of` turns (after agents k)).
  { intros j k Hjk. induction Hjk as [|k Hjk IH]; [reflexivity|].
    etransitivity; [exact IH|]. rewrite after_S. unfold turn.
    destruct (agents !! cursor (after agents k)); [apply prefix_app_r|]; reflexivity. }
  split; [apply Hgen|].
  split.
  { intros k Hk. split; [destruct (Hgen k) as [Hl _]; lia | apply Hprefix, Hk]. }
  split; [apply Hgen|].
  split; [reflexivity|]. split; [reflexivity|].
  exists ["RiskManager";
          "Moderator"; "FundamentalAnalyst"; "RiskManager";
          "Moderator"; "FundamentalAnalyst"; "RiskManager";
          "Moderator"; "FundamentalAnalyst"; "RiskManager"].
  reflexivity.
Qed.

End SkGroupchatProperties.

(** ** The theorems at concrete inputs *)

Section Instances.

Import AsciiPy.

(** C3 at the response triage publishes for the script's inquiry. *)
Lemma exactly_one_target_acts_witness :
  let response :=
    {| AgHandoff.HandoffResponse.handler := "specialist";
       AgHandoff.HandoffResponse.content := PyStr "Route to the specialist.";
       AgHandoff.HandoffResponse.request_id := "HR-001" |} in
  let equity := {| agent_type := "specialist"; agent_key := "default" |} in
  let human := {| agent_type := "human"; agent_key := "default" |} in
  let w : World unit AgHandoff.Msg := start tt ∅ in
  AgHandoff.HandoffResponse.content response = PyStr "Route to the specialist."
  /\ AgHandoff.acted w
       (fst (AgHandoff.EquitySpecialist_on_handoff (Stub.always "Certainly!") equity
               response w))
  /\ ~ AgHandoff.acted w (fst (AgHandoff.HumanAdvisor_on_handoff human response w)).
Proof.
  intros response equity human w. split; [reflexivity|].
  destruct (exactly_one_target_acts (Stub.always "Certainly!") equity human response
              "Route to the specialist." w eq_refl) as (He & Hh & _).
  split.
  - apply He. reflexivity.
  - intros Hacts. apply Hh in Hacts. discriminate Hacts.
Defined.

(** C4 at the script's request, the analysts in registration order and a
    service that always answers "BUY". *)
Lemma fan_out_one_result_per_analyst_witness :
  AgConcurrent.analysts ≡ₚ AgConcurrent.analysts
  /\ (4 <= 4)%nat
  /\ exists w,
       AgConcurrent.run_concurrent (Stub.always "BUY") AgConcurrent.analysts
         AgConcurrent.investment_request 4 tt = Some w
       /\ map AgConcurrent.AnalysisResult.analyst_type (AgConcurrent.results_of w)
          = ["fundamental_analyst"; "technical_analyst"; "sentiment_analyst"].
Proof.
  split; [reflexivity|]. split; [lia|].
  destruct (fan_out_one_result_per_analyst (Stub.always "BUY") AgConcurrent.analysts
              AgConcurrent.investment_request 4 tt (reflexivity _) (le_n 4))
    as (w & Hrun & _ & _ & _ & _ & _ & Htext).
  exists w. split; [exact Hrun|].
  apply Htext. intros s p. exists "BUY". reflexivity.
Defined.

(** C10 at a text that names both: "BUY" wins over "SELL". *)
Lemma recommendation_extraction_witness :
  let self := {| agent_type := "fundamental_analyst"; agent_key := "default" |} in
  let client := Stub.always "Buy on weakness, sell into strength." in
  let w : World unit AgConcurrent.Msg := start tt ∅ in
  snd (client (svc w)
         (AgConcurrent.analyze_prompt AgConcurrent.FundamentalAnalyst
            AgConcurrent.investment_request))
  = Ok {| CreateResult.content := PyStr "Buy on weakness, sell into strength." |}
  /\ exists r,
       AgConcurrent.results_of
         (fst (AgConcurrent.analyze client AgConcurrent.FundamentalAnalyst self
                 AgConcurrent.investment_request w)) = [r]
       /\ (AgConcurrent.AnalysisResult.recommendation r,
           AgConcurrent.AnalysisResult.confidence_score r) = ("BUY", 0.8%float).
Proof.
  intros self client w. split; [reflexivity|].
  destruct (recommendation_extraction client AgConcurrent.FundamentalAnalyst self
              AgConcurrent.investment_request w "Buy on weakness, sell into strength."
              eq_refl)
    as (r & Hpub & _ & Hbuy & _).
  exists r. split.
  - unfold AgConcurrent.results_of. rewrite Hpub. reflexivity.
  - apply Hbuy. exists "", " ON WEAKNESS, SELL INTO STRENGTH.". reflexivity.
Defined.

(** C9 with the echoing stub, from an empty heap and from one that already
    holds another dict. *)
Lemma sequential_replay_same_history_witness :
  let stub := fun p => snd (Stub.echo tt p) in
  let data := [("sector", PyStr "Renewable Energy"); ("market_cap", PyStr "$5B")] in
  AgSequential.deterministic Stub.echo stub
  /\ AgSequential.text_only stub
  /\ (3 <= 3)%nat
  /\ (3 <= 5)%nat
  /\ exists w w',
       AgSequential.run_sequential Stub.echo "GreenTech Solutions Inc." data 3 tt ∅ = Some w
       /\ AgSequential.run_sequential Stub.echo "GreenTech Solutions Inc." data 5 tt
            (<[1%positive := []]> ∅) = Some w'
       /\ AgSequential.history w = AgSequential.history w'.
Proof.
  intros stub data.
  assert (Hdet : AgSequential.deterministic Stub.echo stub) by (intros [] p; reflexivity).
  assert (Htext : AgSequential.text_only stub).
  { intros p result Hp. injection Hp as <-. eexists. reflexivity. }
  split; [exact Hdet|]. split; [exact Htext|]. split; [lia|]. split; [lia|].
  destruct (sequential_replay_same_history Stub.echo stub "GreenTech Solutions Inc." data
              3 5 tt tt ∅ (<[1%positive := []]> ∅) Hdet Htext (le_n 3) ltac:(lia))
    as (w & w' & Hw & Hw' & Hh & _).
  exists w, w'. repeat split; assumption.
Defined.

(** The scripts on stub services, against the transcripts recorded in
    them. *)

(** ag_groupchat.py: the seed reaches all three agents, the moderator's
    invitation reaches the two specialists; they print in the order of the
    recorded transcript. *)
Example groupchat_main_prints :
  stdout <$> AgGroupchat.main (Stub.always "noted") 3 tt
  = Some ["FundamentalAnalyst: noted"; "RiskManager: noted";
          "FundamentalAnalyst: noted"; "RiskManager: noted"].
Proof. vm_compute. reflexivity. Qed.

(** ag_handoff.py: the seed inquiry "I want to invest in stocks" goes to
    the equity specialist, as in the recorded transcript. *)
Example handoff_scenario_prints :
  (fun w => (length (calls w), stdout w))
    <$> AgHandoff.run_handoff_scenario (Stub.always "Certainly!") 2 tt
  = Some (2%nat, ["Equity Specialist report (HR-001):" ++ nl ++ "Certainly!"]).
Proof. vm_compute. reflexivity. Qed.

Example handoff_refund_goes_to_human :
  let request :=
    {| AgHandoff.InvestmentRequest.company := "TechCorp";
       AgHandoff.InvestmentRequest.inquiry := "Please return my money";
       AgHandoff.InvestmentRequest.request_id := "HR-002" |} in
  (fun w => (length (calls w), stdout w))
    <$> AgHandoff.run_handoff (Stub.always "Routing.") request 2 tt
  = Some (1%nat, ["Human Advisor handling refund (HR-002):" ++ nl ++ "Routing."]).
Proof. vm_compute. reflexivity. Qed.

(** ag_concurrent.py on a service that is down: every analyst makes its
    one call, nothing is published, the runtime logs three exceptions. *)
Example fan_out_service_down :
  (fun w => (length (calls w), AgConcurrent.results_of w, length (errlog w)))
    <$> AgConcurrent.run_concurrent_investment_analysis Stub.failing 4 tt
  = Some (3%nat, [], 3%nat).
Proof. vm_compute. reflexivity. Qed.

(** ag_concurrent.py: the prompt an analyst sends. *)
Example analyst_task_line :
  str_title (replace_char "_" " " (AgConcurrent.service_id AgConcurrent.FundamentalAnalyst))
  = "Fundamental Analyst".
Proof. reflexivity. Qed.

(** A service that fails once and would answer the second call: the
    analyst gives up after the one call. *)
Example analyst_does_not_retry :
  let self := {| agent_type := "technical_analyst"; agent_key := "default" |} in
  let run :=
    AgConcurrent.analyze Stub.flaky AgConcurrent.TechnicalAnalyst self
      AgConcurrent.investment_request (start 0%nat ∅) in
  snd run = Raise (ServiceError "timeout")
  /\ svc (fst run) = 1%nat
  /\ length (calls (fst run)) = 1%nat
  /\ published (fst run) = [].
Proof. repeat split. Qed.

(** ag_sequential.py on the echoing stub. *)
Example sequential_scenario_prints :
  stdout <$> AgSequential.run_sequential_scenario Stub.echo 3 tt ∅
  = Some [nl ++ "Final Report for GreenTech Solutions Inc.:" ++ nl
          ++ "seen(seen(seen({'sector': 'Renewable Energy', 'market_cap': '$5B'})))"].
Proof. vm_compute. reflexivity. Qed.

(** Publishing the task object of a finished run again is not a replay of
    the initial message: the dict now holds the two added keys, and the
    collector's prompt shows them. *)
Example same_object_replayed :
  let first := AgSequential.run_sequential_scenario Stub.echo 3 tt ∅ in
  let task :=
    {| AgSequential.InvestmentTask.company := "GreenTech Solutions Inc.";
       AgSequential.InvestmentTask.data := fresh (dom (∅ : gmap loc pydict)) |} in
  let second := first ≫= AgSequential.replay Stub.echo task 3 in
  (fun w => calls w !! 0%nat) <$> first
  = Some (Some (AgSequential.DataCollector_prompt
                  [("sector", PyStr "Renewable Energy"); ("market_cap", PyStr "$5B")]))
  /\ (fun w => calls w !! 3%nat) <$> second
     = Some (Some (AgSequential.DataCollector_prompt
                     [("sector", PyStr "Renewable Energy"); ("market_cap", PyStr "$5B");
                      ("collected",
                       PyStr "seen({'sector': 'Renewable Energy', 'market_cap': '$5B'})");
                      ("analysis",
                       PyStr "seen(seen({'sector': 'Renewable Energy', 'market_cap': '$5B'}))")])).
Proof. split; vm_compute; reflexivity. Qed.

End Instances.

(** * Further properties of the scripts *)

(** ** Fuel *)

Section Fuel.

Context {CS Msg : Type}.

(** More fuel does not change the outcome of a run that ended. *)
Lemma stop_when_idle_more_fuel (regs : list (Registration CS Msg)) (fuel fuel' : nat)
    (w w' : World CS Msg) :
  stop_when_idle fuel regs w = Some w' ->
  (fuel <= fuel')%nat ->
  stop_when_idle fuel' regs w = Some w'.
Proof.
  revert fuel' w. induction fuel as [|fuel IH]; intros fuel' w Hrun Hle.
  - destruct fuel'; [exact Hrun|].
    cbn [stop_when_idle] in *. destruct (process_next regs w); [discriminate | exact Hrun].
  - destruct fuel' as [|fuel']; [lia|].
    cbn [stop_when_idle] in *. destruct (process_next regs w) as [w1|]; [|exact Hrun].
    apply IH; [exact Hrun | lia].
Qed.

End Fuel.

(** ** The group chat run (ag_groupchat.py) *)

Section GroupchatRun.

Import AgGroupchat.

Context `{PyBuiltins} {CS : Type} (client : Client CS).

Lemma groupchat_main_two_steps (s : CS) :
  let question := "Should we invest in TechCorp Inc.?" in
  let invite :=
    "Proposal: " ++ question ++ nl ++ "Fundamental and Risk analysts, please comment." in
  exists w,
    main client 2 s = Some w
    /\ queue w = []
    /\ map (fun e => GroupMessage.text (env_message e)) (published w) = [question; invite]
    /\ calls w
       = [ [SystemMessage "Provide a brief fundamental analysis.";
            UserMessage (PyStr question) "FundamentalAnalyst"];
           [SystemMessage "Provide a brief risk assessment.";
            UserMessage (PyStr question) "RiskManager"];
           [SystemMessage "Provide a brief fundamental analysis.";
            UserMessage (PyStr invite) "FundamentalAnalyst"];
           [SystemMessage "Provide a brief risk assessment.";
            UserMessage (PyStr invite) "RiskManager"] ]
    /\ (length (stdout w) + length (errlog w) = 4)%nat.
Proof.
  unfold main, publish_message, start. vm_compute.
  repeat match goal with
         | |- context [client ?s0 ?p] =>
             destruct (client s0 p) as [? [?|?]]; vm_compute
         end;
    eexists; repeat split; reflexivity.
Qed.

(** X1.  Whatever the completion service does, the group chat ends after
    two deliveries: the seed question reaches the moderator and the two
    specialists, the moderator's invitation reaches the two specialists
    only (never the moderator again), so the service is called four times,
    twice with the question and twice with the invitation, and each of the
    four calls ends in a printed line or in a logged exception. *)
Theorem groupchat_main_ends (fuel : nat) (s : CS) :
  (2 <= fuel)%nat ->
  let question := "Should we invest in TechCorp Inc.?" in
  let invite :=
    "Proposal: " ++ question ++ nl ++ "Fundamental and Risk analysts, please comment." in
  exists w,
    main client fuel s = Some w
    /\ queue w = []
    /\ map (fun e => GroupMessage.text (env_message e)) (published w) = [question; invite]
    /\ calls w
       ≡ₚ [ [SystemMessage "Provide a brief fundamental analysis.";
             UserMessage (PyStr question) "FundamentalAnalyst"];
            [SystemMessage "Provide a brief fundamental analysis.";
             UserMessage (PyStr invite) "FundamentalAnalyst"];
            [SystemMessage "Provide a brief risk assessment.";
             UserMessage (PyStr question) "RiskManager"];
            [SystemMessage "Provide a brief risk assessment.";
             UserMessage (PyStr invite) "RiskManager"] ]
    /\ (length (stdout w) + length (errlog w) = 4)%nat.
Proof.
  intros Hfuel question invite.
  destruct (groupchat_main_two_steps s) as (w & Hrun & Hq & Hp & Hc & Ho).
  exists w. fold question invite in Hp, Hc.
  split.
  { unfold main in *. cbv beta iota zeta delta [publish_message] in *.
    eapply stop_when_idle_more_fuel; [exact Hrun | exact Hfuel]. }
  split; [exact Hq|]. split; [exact Hp|]. split; [|exact Ho].
  rewrite Hc. apply Permutation_skip, Permutation_swap.
Qed.

End GroupchatRun.

(** ** The handoff run (ag_handoff.py) *)

Section HandoffRun.

Import AgHandoff.

Context `{PyBuiltins} {CS : Type} (client : Client CS).

(** The run of the scenario, case by case. *)
Lemma handoff_trace (request : InvestmentRequest.t) (s : CS) :
  let seed := {| env_sender := None; env_topic := DefaultTopicId None;
                 env_message := Request request |} in
  let triage := {| agent_type := "triage"; agent_key := "default" |} in
  let p1 := TriageAdvisor_prompt request in
  exists w,
    run_handoff client request 2 s = Some w
    /\ queue w = []
    /\ match client s p1 with
       | (s1, Raise x) =>
           svc w = s1 /\ calls w = [p1] /\ published w = [seed]
           /\ stdout w = [] /\ errlog w = [x]
       | (s1, Ok r1) =>
           let invest := str_in "invest" (str_lower (InvestmentRequest.inquiry request)) in
           let response :=
             {| HandoffResponse.handler := if invest then "specialist" else "refund";
                HandoffResponse.content := CreateResult.content r1;
                HandoffResponse.request_id := InvestmentRequest.request_id request |} in
           let p2 := [EquitySpecialist_system;
                      UserMessage (CreateResult.content r1) "EquitySpecialist"] in
           published w
           = [seed; {| env_sender := Some triage; env_topic := DefaultTopicId (Some triage);
                       env_message := Handoff response |}]
           /\ if invest
              then match client s1 p2 with
                   | (s2, Ok r2) =>
                       svc w = s2 /\ calls w = [p1; p2]
                       /\ stdout w
                          = [("Equity Specialist report ("
                              ++ InvestmentRequest.request_id request ++ "):" ++ nl
                              ++ py_str (CreateResult.content r2))%string]
                       /\ errlog w = []
                   | (s2, Raise x) =>
                       svc w = s2 /\ calls w = [p1; p2] /\ stdout w = [] /\ errlog w = [x]
                   end
              else svc w = s1 /\ calls w = [p1]
                   /\ stdout w
                      = [("Human Advisor handling refund ("
                          ++ InvestmentRequest.request_id request ++ "):" ++ nl
                          ++ py_str (CreateResult.content r1))%string]
                   /\ errlog w = []
       end.
Proof.
  destruct request as [company inquiry request_id].
  cbv -[TriageAdvisor_prompt EquitySpecialist_system str_in str_lower py_str nl append].
  destruct (client s _) as [s1 [r1|x1]];
    cbv -[TriageAdvisor_prompt EquitySpecialist_system str_in str_lower py_str nl append].
  - destruct (str_in "invest" (str_lower inquiry));
      cbv -[TriageAdvisor_prompt EquitySpecialist_system str_in str_lower py_str nl append].
    + destruct (client s1 _) as [s2 [r2|x2]];
        cbv -[TriageAdvisor_prompt EquitySpecialist_system str_in str_lower py_str nl append];
        eexists; repeat split; reflexivity.
    + eexists; repeat split; reflexivity.
  - eexists; repeat split; reflexivity.
Qed.

Lemma run_handoff_more_fuel (request : InvestmentRequest.t) (fuel : nat) (s : CS)
    (w : World CS Msg) :
  run_handoff client request 2 s = Some w ->
  (2 <= fuel)%nat ->
  run_handoff client request fuel s = Some w.
Proof.
  unfold run_handoff. cbv beta iota zeta delta [publish_message].
  intros Hrun Hfuel. eapply stop_when_idle_more_fuel; [exact Hrun | exact Hfuel].
Qed.

(** X2.  Every run of the handoff scenario ends after at most two calls to
    the completion service with exactly one outcome: one printed reply, or
    one logged exception; never both and never neither. *)
Theorem handoff_one_outcome (request : InvestmentRequest.t) (fuel : nat) (s : CS) :
  (2 <= fuel)%nat ->
  exists w,
    run_handoff client request fuel s = Some w
    /\ queue w = []
    /\ (1 <= length (calls w) <= 2)%nat
    /\ (length (published w) <= 2)%nat
    /\ (length (stdout w) + length (errlog w) = 1)%nat.
Proof.
  intros Hfuel.
  destruct (handoff_trace request s) as (w & Hrun & Hq & Hcase).
  exists w. split; [exact (run_handoff_more_fuel _ _ _ _ Hrun Hfuel)|].
  split; [exact Hq|].
  cbv zeta in Hcase.
  destruct (client s (TriageAdvisor_prompt request)) as [s1 [r1|x1]].
  - destruct Hcase as (-> & Hcase).
    destruct (str_in "invest" (str_lower (InvestmentRequest.inquiry request))).
    + destruct (client s1 _) as [s2 [r2|x2]]; destruct Hcase as (_ & -> & -> & ->);
        simpl; lia.
    + destruct Hcase as (_ & -> & -> & ->). simpl. lia.
  - destruct Hcase as (_ & -> & -> & -> & ->). simpl. lia.
Qed.

(** X3.  When triage's call to the completion service fails, the session
    ends there: no [HandoffResponse] is published, neither target is
    reached, nothing is printed and the exception is logged. *)
Theorem handoff_triage_failure (request : InvestmentRequest.t) (fuel : nat) (s : CS)
    (x : exn) :
  (2 <= fuel)%nat ->
  snd (client s (TriageAdvisor_prompt request)) = Raise x ->
  exists w,
    run_handoff client request fuel s = Some w
    /\ calls w = [TriageAdvisor_prompt request]
    /\ map env_message (published w) = [Request request]
    /\ stdout w = []
    /\ errlog w = [x].
Proof.
  intros Hfuel Hfail.
  destruct (handoff_trace request s) as (w & Hrun & Hq & Hcase).
  exists w. split; [exact (run_handoff_more_fuel _ _ _ _ Hrun Hfuel)|].
  cbv zeta in Hcase.
  destruct (client s (TriageAdvisor_prompt request)) as [s1 [r1|x1]];
    simpl in Hfail; [discriminate Hfail|].
  injection Hfail as ->.
  destruct Hcase as (_ & -> & -> & -> & ->). repeat split; reflexivity.
Qed.

(** X4.  An inquiry without the keyword costs one call: triage's answer is
    not sent to the service again, the human advisor prints it as it is,
    under the request id. *)
Theorem handoff_refund_route (request : InvestmentRequest.t) (fuel : nat) (s s1 : CS)
    (r1 : CreateResult.t) :
  (2 <= fuel)%nat ->
  str_in "invest" (str_lower (InvestmentRequest.inquiry request)) = false ->
  client s (TriageAdvisor_prompt request) = (s1, Ok r1) ->
  exists w,
    run_handoff client request fuel s = Some w
    /\ svc w = s1
    /\ calls w = [TriageAdvisor_prompt request]
    /\ stdout w
       = [("Human Advisor handling refund (" ++ InvestmentRequest.request_id request
           ++ "):" ++ nl ++ py_str (CreateResult.content r1))%string]
    /\ errlog w = [].
Proof.
  intros Hfuel Hkey Hanswer.
  destruct (handoff_trace request s) as (w & Hrun & Hq & Hcase).
  exists w. split; [exact (run_handoff_more_fuel _ _ _ _ Hrun Hfuel)|].
  cbv zeta in Hcase. rewrite Hanswer, Hkey in Hcase.
  destruct Hcase as (_ & -> & -> & -> & ->). repeat split; reflexivity.
Qed.

(** X5.  An inquiry with the keyword costs two calls, and what the equity
    specialist sends to the service is triage's answer, not the customer's
    inquiry; its report is printed under the request id, or its failure is
    logged. *)
Theorem handoff_invest_route (request : InvestmentRequest.t) (fuel : nat) (s s1 : CS)
    (r1 : CreateResult.t) (text : string) :
  (2 <= fuel)%nat ->
  str_in "invest" (str_lower (InvestmentRequest.inquiry request)) = true ->
  client s (TriageAdvisor_prompt request) = (s1, Ok r1) ->
  CreateResult.content r1 = PyStr text ->
  let p2 := [EquitySpecialist_system; UserMessage (PyStr text) "EquitySpecialist"] in
  exists w,
    run_handoff client request fuel s = Some w
    /\ svc w = fst (client s1 p2)
    /\ calls w = [TriageAdvisor_prompt request; p2]
    /\ match snd (client s1 p2) with
       | Ok r2 =>
           stdout w
           = [("Equity Specialist report (" ++ InvestmentRequest.request_id request
               ++ "):" ++ nl ++ py_str (CreateResult.content r2))%string]
           /\ errlog w = []
       | Raise x => stdout w = [] /\ errlog w = [x]
       end.
Proof.
  intros Hfuel Hkey Hanswer Htext p2.
  destruct (handoff_trace request s) as (w & Hrun & Hq & Hcase).
  exists w. split; [exact (run_handoff_more_fuel _ _ _ _ Hrun Hfuel)|].
  cbv zeta in Hcase. rewrite Hanswer, Hkey, Htext in Hcase. fold p2 in Hcase.
  destruct Hcase as (_ & Hcase).
  destruct (client s1 p2) as [s2 [r2|x2]]; destruct Hcase as (-> & -> & -> & ->);
    repeat split; reflexivity.
Qed.

(** X6.  The company of the request plays no part in the handoff scenario:
    two requests with the same inquiry and request id lead to the same
    calls, the same printed lines and the same logged exceptions. *)
Theorem handoff_ignores_company (request request' : InvestmentRequest.t) (fuel : nat)
    (s : CS) :
  (2 <= fuel)%nat ->
  InvestmentRequest.inquiry request = InvestmentRequest.inquiry request' ->
  InvestmentRequest.request_id request = InvestmentRequest.request_id request' ->
  exists w w',
    run_handoff client request fuel s = Some w
    /\ run_handoff client request' fuel s = Some w'
    /\ svc w = svc w' /\ calls w = calls w' /\ stdout w = stdout w'
    /\ errlog w = errlog w'.
Proof.
  intros Hfuel Hinq Hid.
  destruct (handoff_trace request s) as (w & Hrun & _ & Hcase).
  destruct (handoff_trace request' s) as (w' & Hrun' & _ & Hcase').
  exists w, w'.
  split; [exact (run_handoff_more_fuel _ _ _ _ Hrun Hfuel)|].
  split; [exact (run_handoff_more_fuel _ _ _ _ Hrun' Hfuel)|].
  cbv zeta in Hcase, Hcase'. unfold TriageAdvisor_prompt in Hcase, Hcase'.
  rewrite <- Hinq, <- Hid in Hcase'.
  destruct (client s _) as [s1 [r1|x1]].
  - destruct Hcase as (_ & Hcase). destruct Hcase' as (_ & Hcase').
    destruct (str_in "invest" (str_lower (InvestmentRequest.inquiry request))).
    + destruct (client s1 _) as [s2 [r2|x2]];
        destruct Hcase as (-> & -> & -> & ->); destruct Hcase' as (-> & -> & -> & ->);
        repeat split; reflexivity.
    + destruct Hcase as (-> & -> & -> & ->); destruct Hcase' as (-> & -> & -> & ->).
      repeat split; reflexivity.
  - destruct Hcase as (-> & -> & _ & -> & ->); destruct Hcase' as (-> & -> & _ & -> & ->).
    repeat split; reflexivity.
Qed.

End HandoffRun.

(** ** More on the fan-out (ag_concurrent.py) *)


Section ConcurrentRun.

Import AgConcurrent.

Context `{PyBuiltins} {CS : Type} (client : Client CS).

(** X7.  When the service answers with something that is not text, the
    analyst has made its one call and leaves with an [AssertionError]:
    nothing is printed and no [AnalysisResult] is published. *)
Theorem analyze_rejects_non_text (agent : BaseAnalysisAgent) (self : AgentId)
    (message : InvestmentRequest.t) (w : World CS Msg) (result : CreateResult.t) :
  snd (client (svc w) (analyze_prompt agent message)) = Ok result ->
  (forall text, CreateResult.content result <> PyStr text) ->
  let run := analyze client agent self message w in
  snd run = Raise AssertionError
  /\ calls (fst run) = (calls w ++ [analyze_prompt agent message])%list
  /\ stdout (fst run) = stdout w
  /\ published (fst run) = published w
  /\ queue (fst run) = queue w.
Proof.
  intros Hanswer Hnot. unfold analyze, bind, create. cbv zeta.
  destruct (client (svc w) (analyze_prompt agent message)) as [s' r].
  simpl in Hanswer. subst r.
  destruct result as [[| | |text| |]]; simpl; try (repeat split; reflexivity).
  exfalso. exact (Hnot text eq_refl).
Qed.





End ConcurrentRun.

(** ** More on the pipeline (ag_sequential.py) *)

Section SequentialRun.

Import AgSequential.

Context `{PyBuiltins} {CS : Type} (client : Client CS).

Implicit Types (w : World CS Msg).

(** Delivery to each stage, for any completion service. *)
Lemma collect_step (e : Envelope Msg) w (d : pydict) (s' : CS) (r : res CreateResult.t) :
  heap w !! InvestmentTask.data (env_message e) = Some d ->
  client (svc w) (DataCollector_prompt d) = (s', r) ->
  let w1 := deliver e w (DataCollectorAgent client) in
  let self := {| agent_type := "DataCollector"; agent_key := topic_source (env_topic e) |} in
  let e1 := {| env_sender := Some self;
               env_topic := {| topic_type := "FundamentalAnalyst";
                               topic_source := topic_source (env_topic e) |};
               env_message := env_message e |} in
  svc w1 = s'
  /\ calls w1 = (calls w ++ [DataCollector_prompt d])%list
  /\ stdout w1 = stdout w
  /\ match r with
     | Ok result =>
         heap w1 = <[InvestmentTask.data (env_message e)
                     := dict_set d "collected" (CreateResult.content result)]> (heap w)
         /\ queue w1 = (queue w ++ [e1])%list
         /\ published w1 = (published w ++ [e1])%list
         /\ errlog w1 = errlog w
     | Raise x =>
         heap w1 = heap w /\ queue w1 = queue w /\ published w1 = published w
         /\ errlog w1 = (errlog w ++ [x])%list
     end.
Proof.
  intros Hheap Hanswer w1 self e1.
  destruct (deliver_handled e w (DataCollectorAgent client)
              (DataCollectorAgent_on_collect client self (env_message e)) eq_refl)
    as (Hs & Hc & Hq & Hp & Ho & Hh & He).
  fold w1 in Hs, Hc, Hq, Hp, Ho, Hh, He.
  pose proof (on_collect_effect client self (env_message e) w) as Heff. cbv zeta in Heff.
  rewrite Hheap in Heff. cbn [default from_option id] in Heff.
  rewrite Hanswer in Heff. cbn [fst snd] in Heff.
  destruct Heff as (Es & Ec & Eo & Ee & Ecase).
  rewrite Hs, Hc, Ho, Hh, Hq, Hp, He, Es, Ec, Eo, Ee.
  do 3 (split; [reflexivity|]).
  destruct r as [result|x]; destruct Ecase as (-> & -> & -> & ->);
    rewrite ?app_nil_r; repeat split; reflexivity.
Qed.

Lemma analyze_step (e : Envelope Msg) w (d : pydict) (collected : pyval) (s' : CS)
    (r : res CreateResult.t) :
  heap w !! InvestmentTask.data (env_message e) = Some d ->
  dict_get d "collected" = Some collected ->
  client (svc w) (FundamentalAnalyst_prompt collected) = (s', r) ->
  let w1 := deliver e w (FundamentalAnalystAgent client) in
  let self :=
    {| agent_type := "FundamentalAnalyst"; agent_key := topic_source (env_topic e) |} in
  let e1 := {| env_sender := Some self;
               env_topic := {| topic_type := "ReportGenerator";
                               topic_source := topic_source (env_topic e) |};
               env_message := env_message e |} in
  svc w1 = s'
  /\ calls w1 = (calls w ++ [FundamentalAnalyst_prompt collected])%list
  /\ stdout w1 = stdout w
  /\ match r with
     | Ok result =>
         heap w1 = <[InvestmentTask.data (env_message e)
                     := dict_set d "analysis" (CreateResult.content result)]> (heap w)
         /\ queue w1 = (queue w ++ [e1])%list
         /\ published w1 = (published w ++ [e1])%list
         /\ errlog w1 = errlog w
     | Raise x =>
         heap w1 = heap w /\ queue w1 = queue w /\ published w1 = published w
         /\ errlog w1 = (errlog w ++ [x])%list
     end.
Proof.
  intros Hheap Hget Hanswer w1 self e1.
  destruct (deliver_handled e w (FundamentalAnalystAgent client)
              (FundamentalAnalystAgent_on_analyze client self (env_message e)) eq_refl)
    as (Hs & Hc & Hq & Hp & Ho & Hh & He).
  fold w1 in Hs, Hc, Hq, Hp, Ho, Hh, He.
  pose proof (on_analyze_effect client self (env_message e) w) as Heff. cbv zeta in Heff.
  rewrite Hheap in Heff. cbn [default from_option id] in Heff.
  rewrite Hget, Hanswer in Heff. cbn [fst snd] in Heff.
  destruct Heff as (Eo & Ee & Es & Ec & Ecase).
  rewrite Hs, Hc, Ho, Hh, Hq, Hp, He, Es, Ec, Eo, Ee.
  do 3 (split; [reflexivity|]).
  destruct r as [result|x]; destruct Ecase as (-> & -> & -> & ->);
    rewrite ?app_nil_r; repeat split; reflexivity.
Qed.

Lemma report_step (e : Envelope Msg) w (d : pydict) (analysis : pyval) (s' : CS)
    (r : res CreateResult.t) :
  heap w !! InvestmentTask.data (env_message e) = Some d ->
  dict_get d "analysis" = Some analysis ->
  client (svc w) (ReportGenerator_prompt analysis) = (s', r) ->
  let w1 := deliver e w (ReportGeneratorAgent client) in
  svc w1 = s'
  /\ calls w1 = (calls w ++ [ReportGenerator_prompt analysis])%list
  /\ heap w1 = heap w /\ queue w1 = queue w /\ published w1 = published w
  /\ match r with
     | Ok result =>
         stdout w1
         = (stdout w
            ++ [(nl ++ "Final Report for " ++ InvestmentTask.company (env_message e)
                 ++ ":" ++ nl ++ py_str (CreateResult.content result))%string])%list
         /\ errlog w1 = errlog w
     | Raise x => stdout w1 = stdout w /\ errlog w1 = (errlog w ++ [x])%list
     end.
Proof.
  intros Hheap Hget Hanswer w1.
  set (self := instance_of (ReportGeneratorAgent client) e).
  destruct (deliver_handled e w (ReportGeneratorAgent client)
              (ReportGeneratorAgent_on_report client self (env_message e)) eq_refl)
    as (Hs & Hc & Hq & Hp & Ho & Hh & He).
  fold w1 in Hs, Hc, Hq, Hp, Ho, Hh, He.
  pose proof (on_report_effect client self (env_message e) w) as Heff. cbv zeta in Heff.
  rewrite Hheap in Heff. cbn [default from_option id] in Heff.
  rewrite Hget, Hanswer in Heff. cbn [fst snd] in Heff.
  destruct Heff as (Eh & Eq & Ep & Ee & Es & Ec & Ecase).
  rewrite Hs, Hc, Ho, Hh, Hq, Hp, He, Eh, Eq, Ep, Ee, Es, Ec.
  do 5 (split; [reflexivity|]).
  destruct r as [result|x]; destruct Ecase as (-> & ->);
    rewrite ?app_nil_r; repeat split; reflexivity.
Qed.

(** The run from a seed task whose dict holds [d], case by case, for any
    completion service. *)
Lemma sequential_trace (company : string) (d : pydict) (l : loc) (fuel : nat) w :
  let task := {| InvestmentTask.company := company; InvestmentTask.data := l |} in
  let seed := {| env_sender := None;
                 env_topic := {| topic_type := "DataCollector";
                                 topic_source := "default" |};
                 env_message := task |} in
  let FA := {| topic_type := "FundamentalAnalyst"; topic_source := "default" |} in
  let RG := {| topic_type := "ReportGenerator"; topic_source := "default" |} in
  (3 <= fuel)%nat ->
  queue w = [seed] ->
  heap w !! l = Some d ->
  exists w' new,
    stop_when_idle fuel (registered client) w = Some w'
    /\ queue w' = []
    /\ published w' = (published w ++ new)%list
    /\ Forall (fun e => env_message e = task) new
    /\ (forall l', l' <> l -> heap w' !! l' = heap w !! l')
    /\ let p1 := DataCollector_prompt d in
       match client (svc w) p1 with
       | (s1, Raise x) =>
           svc w' = s1 /\ calls w' = (calls w ++ [p1])%list
           /\ map env_topic new = []
           /\ heap w' !! l = Some d
           /\ stdout w' = stdout w /\ errlog w' = (errlog w ++ [x])%list
       | (s1, Ok r1) =>
           let d1 := dict_set d "collected" (CreateResult.content r1) in
           let p2 := FundamentalAnalyst_prompt (CreateResult.content r1) in
           match client s1 p2 with
           | (s2, Raise x) =>
               svc w' = s2 /\ calls w' = (calls w ++ [p1; p2])%list
               /\ map env_topic new = [FA]
               /\ heap w' !! l = Some d1
               /\ stdout w' = stdout w /\ errlog w' = (errlog w ++ [x])%list
           | (s2, Ok r2) =>
               let d2 := dict_set d1 "analysis" (CreateResult.content r2) in
               let p3 := ReportGenerator_prompt (CreateResult.content r2) in
               svc w' = fst (client s2 p3)
               /\ calls w' = (calls w ++ [p1; p2; p3])%list
               /\ map env_topic new = [FA; RG]
               /\ heap w' !! l = Some d2
               /\ match snd (client s2 p3) with
                  | Ok r3 =>
                      stdout w'
                      = (stdout w
                         ++ [(nl ++ "Final Report for " ++ company ++ ":" ++ nl
                              ++ py_str (CreateResult.content r3))%string])%list
                      /\ errlog w' = errlog w
                  | Raise x =>
                      stdout w' = stdout w /\ errlog w' = (errlog w ++ [x])%list
                  end
           end
       end.
Proof.
  intros task seed FA RG Hfuel Hq Hheap.
  destruct fuel as [|[|[|fuel]]]; [lia|lia|lia|].
  cbv zeta.
  rewrite (stop_when_idle_cons _ _ w seed [] Hq), (receivers_collect client seed)
    by reflexivity.
  cbn [fold_left].
  match goal with |- context [deliver seed ?x _] => set (w0 := x) end.
  destruct (client (svc w) (DataCollector_prompt d)) as [s1 r1] eqn:H1.
  pose proof (collect_step seed w0 d s1 r1 Hheap H1) as S1. cbv zeta in S1.
  set (w1 := deliver seed w0 (DataCollectorAgent client)) in *.
  destruct S1 as (Sv1 & C1 & O1 & S1).
  cbn [env_message env_topic topic_source calls stdout heap queue published errlog w0
         InvestmentTask.data seed task app] in C1, O1, S1.
  destruct r1 as [r1|x1].
  2:{ destruct S1 as (Hh1 & Q1 & P1 & E1).
      rewrite (stop_when_idle_nil _ _ w1 Q1).
      exists w1, []. rewrite app_nil_r.
      split; [reflexivity|]. split; [exact Q1|]. split; [exact P1|].
      split; [constructor|].
      split; [intros l' _; rewrite Hh1; reflexivity|].
      rewrite Hh1. repeat split; assumption. }
  destruct S1 as (Hh1 & Q1 & P1 & E1).
  rewrite (stop_when_idle_cons _ _ w1 _ [] Q1), receivers_analyze by reflexivity.
  cbn [fold_left].
  match goal with |- context [deliver ?e ?x (FundamentalAnalystAgent client)] =>
    set (e1 := e) in *; set (w1' := x) end.
  set (d1 := dict_set d "collected" (CreateResult.content r1)) in *.
  assert (Hheap1 : heap w1' !! InvestmentTask.data (env_message e1) = Some d1).
  { cbn [heap w1' env_message e1 InvestmentTask.data task]. rewrite Hh1.
    apply lookup_insert_eq. }
  destruct (client s1 (FundamentalAnalyst_prompt (CreateResult.content r1)))
    as [s2 r2] eqn:H2.
  assert (H2' : client (svc w1') (FundamentalAnalyst_prompt (CreateResult.content r1))
                = (s2, r2)).
  { cbn [svc w1']. rewrite Sv1. exact H2. }
  pose proof (analyze_step e1 w1' d1 (CreateResult.content r1) s2 r2 Hheap1
                (dict_get_set_eq d "collected" _) H2') as S2.
  cbv zeta in S2.
  set (w2 := deliver e1 w1' (FundamentalAnalystAgent client)) in *.
  destruct S2 as (Sv2 & C2 & O2 & S2).
  cbn [env_message env_topic topic_source calls stdout heap queue published errlog w1'
         e1 InvestmentTask.data task app] in C2, O2, S2.
  destruct r2 as [r2|x2].
  2:{ destruct S2 as (Hh2 & Q2 & P2 & E2).
      rewrite (stop_when_idle_nil _ _ w2 Q2).
      exists w2, [e1].
      split; [reflexivity|]. split; [exact Q2|].
      split; [rewrite P2, P1; reflexivity|].
      split; [repeat constructor|].
      split.
      { intros l' Hl'. rewrite Hh2, Hh1, lookup_insert_ne by congruence. reflexivity. }
      split; [exact Sv2|].
      split; [rewrite C2, C1, <- app_assoc; reflexivity|].
      split; [reflexivity|].
      split; [rewrite Hh2, Hh1; apply lookup_insert_eq|].
      split; [rewrite O2, O1; reflexivity | rewrite E2, E1; reflexivity]. }
  destruct S2 as (Hh2 & Q2 & P2 & E2).
  rewrite (stop_when_idle_cons _ _ w2 _ [] Q2), receivers_report by reflexivity.
  cbn [fold_left].
  match goal with |- context [deliver ?e ?x (ReportGeneratorAgent client)] =>
    set (e2 := e) in *; set (w2' := x) end.
  set (d2 := dict_set d1 "analysis" (CreateResult.content r2)) in *.
  assert (Hheap2 : heap w2' !! InvestmentTask.data (env_message e2) = Some d2).
  { cbn [heap w2' env_message e2 InvestmentTask.data task]. rewrite Hh2.
    apply lookup_insert_eq. }
  destruct (client s2 (ReportGenerator_prompt (CreateResult.content r2)))
    as [s3 r3] eqn:H3.
  assert (H3' : client (svc w2') (ReportGenerator_prompt (CreateResult.content r2))
                = (s3, r3)).
  { cbn [svc w2']. rewrite Sv2. exact H3. }
  pose proof (report_step e2 w2' d2 (CreateResult.content r2) s3 r3 Hheap2
                (dict_get_set_eq d1 "analysis" _) H3') as S3.
  cbv zeta in S3.
  set (w3 := deliver e2 w2' (ReportGeneratorAgent client)) in *.
  destruct S3 as (Sv3 & C3 & Hh3 & Q3 & P3 & S3).
  cbn [env_message env_topic topic_source calls stdout heap queue published errlog w2'
         e2 InvestmentTask.data InvestmentTask.company task app fst snd] in C3, Hh3, Q3, P3, S3.
  rewrite (stop_when_idle_nil _ _ w3 Q3).
  exists w3, [e1; e2].
  split; [reflexivity|]. split; [exact Q3|].
  split; [rewrite P3, P2, P1, <- app_assoc; reflexivity|].
  split; [repeat constructor|].
  split.
  { intros l' Hl'. rewrite Hh3, Hh2, Hh1, !lookup_insert_ne by congruence. reflexivity. }
  cbn [fst snd].
  split; [exact Sv3|].
  split; [rewrite C3, C2, C1, <- !app_assoc; reflexivity|].
  split; [reflexivity|].
  split; [rewrite Hh3, Hh2; apply lookup_insert_eq|].
  destruct r3 as [r3|x3]; destruct S3 as [-> ->]; rewrite O2, O1, E2, E1; split; reflexivity.
Qed.

Lemma run_sequential_unfold (company : string) (data : pydict) (fuel : nat) (s : CS)
    (h : gmap loc pydict) :
  let l := fresh (dom h) in
  let seed := {| env_sender := None;
                 env_topic := {| topic_type := "DataCollector";
                                 topic_source := "default" |};
                 env_message := {| InvestmentTask.company := company;
                                   InvestmentTask.data := l |} |} in
  run_sequential client company data fuel s h
  = stop_when_idle fuel (registered client)
      {| svc := s; calls := []; queue := [seed]; published := [seed]; stdout := [];
         heap := <[l := data]> h; errlog := [] |}.
Proof. reflexivity. Qed.

(** X10.  When the collector's call to the service fails, the chain stops
    at the first stage: the analyst and the report generator are not
    dispatched, nothing is printed, the exception is logged and the task's
    dict is as it was built. *)
Theorem pipeline_collector_failure (company : string) (data : pydict) (fuel : nat)
    (s : CS) (h : gmap loc pydict) (x : exn) :
  (3 <= fuel)%nat ->
  snd (client s (DataCollector_prompt data)) = Raise x ->
  exists w,
    run_sequential client company data fuel s h = Some w
    /\ calls w = [DataCollector_prompt data]
    /\ map env_topic (published w)
       = [{| topic_type := "DataCollector"; topic_source := "default" |}]
    /\ stdout w = []
    /\ errlog w = [x]
    /\ heap w !! fresh (dom h) = Some data.
Proof.
  intros Hfuel Hfail. rewrite run_sequential_unfold. cbv zeta.
  match goal with |- context [stop_when_idle fuel _ ?x] => set (w0 := x) end.
  destruct (sequential_trace company data (fresh (dom h)) fuel w0 Hfuel eq_refl
              (lookup_insert_eq _ _ _))
    as (w & new & Hrun & _ & Hp & _ & _ & Hcase).
  exists w. split; [exact Hrun|].
  cbv zeta in Hcase. cbn [svc w0] in Hcase.
  destruct (client s (DataCollector_prompt data)) as [s1 [r1|x1]];
    simpl in Hfail; [discriminate Hfail|].
  injection Hfail as ->.
  destruct Hcase as (_ & Hc & Ht & Hh & Ho & He).
  rewrite Hp, map_app, Ht, Hc, Ho, He. repeat split; try reflexivity. exact Hh.
Qed.

(** X11.  When the analyst's call fails, the chain stops at the second
    stage: the report generator is not dispatched and nothing is printed,
    but the task keeps what the collector stored: its dict holds
    "collected" and no "analysis" of the run. *)
Theorem pipeline_analyst_failure (company : string) (data : pydict) (fuel : nat)
    (s s1 : CS) (h : gmap loc pydict) (r1 : CreateResult.t) (collected : string) (x : exn) :
  (3 <= fuel)%nat ->
  client s (DataCollector_prompt data) = (s1, Ok r1) ->
  CreateResult.content r1 = PyStr collected ->
  snd (client s1 (FundamentalAnalyst_prompt (PyStr collected))) = Raise x ->
  exists w d,
    run_sequential client company data fuel s h = Some w
    /\ calls w = [DataCollector_prompt data; FundamentalAnalyst_prompt (PyStr collected)]
    /\ stdout w = []
    /\ errlog w = [x]
    /\ heap w !! fresh (dom h) = Some d
    /\ dict_get d "collected" = Some (PyStr collected)
    /\ dict_get d "analysis" = dict_get data "analysis".
Proof.
  intros Hfuel H1 Htext Hfail. rewrite run_sequential_unfold. cbv zeta.
  match goal with |- context [stop_when_idle fuel _ ?x] => set (w0 := x) end.
  destruct (sequential_trace company data (fresh (dom h)) fuel w0 Hfuel eq_refl
              (lookup_insert_eq _ _ _))
    as (w & new & Hrun & _ & Hp & _ & _ & Hcase).
  cbv zeta in Hcase. cbn [svc w0] in Hcase. rewrite H1, Htext in Hcase.
  destruct (client s1 (FundamentalAnalyst_prompt (PyStr collected))) as [s2 [r2|x2]];
    simpl in Hfail; [discriminate Hfail|].
  injection Hfail as ->.
  destruct Hcase as (_ & Hc & _ & Hh & Ho & He).
  exists w, (dict_set data "collected" (PyStr collected)).
  split; [exact Hrun|]. rewrite Hc, Ho, He.
  repeat split; try reflexivity.
  - exact Hh.
  - apply dict_get_set_eq.
  - apply dict_get_set_ne. discriminate.
Qed.

(** X12.  When the service answers all three calls with text, each stage
    is sent the answer to the stage before it and nothing else: the
    analyst sees only what the service made of the data, the report
    generator only the analysis.  The report is printed under the company
    name, and the task's dict ends with the two answers added, its other
    keys as they were. *)
Theorem pipeline_success_chain (company : string) (data : pydict) (fuel : nat)
    (s s1 s2 s3 : CS) (h : gmap loc pydict) (r1 r2 r3 : CreateResult.t)
    (collected analysis : string) :
  (3 <= fuel)%nat ->
  client s (DataCollector_prompt data) = (s1, Ok r1) ->
  CreateResult.content r1 = PyStr collected ->
  client s1 (FundamentalAnalyst_prompt (PyStr collected)) = (s2, Ok r2) ->
  CreateResult.content r2 = PyStr analysis ->
  client s2 (ReportGenerator_prompt (PyStr analysis)) = (s3, Ok r3) ->
  exists w d,
    run_sequential client company data fuel s h = Some w
    /\ svc w = s3
    /\ calls w = [DataCollector_prompt data;
                  FundamentalAnalyst_prompt (PyStr collected);
                  ReportGenerator_prompt (PyStr analysis)]
    /\ map env_topic (published w)
       = [{| topic_type := "DataCollector"; topic_source := "default" |};
          {| topic_type := "FundamentalAnalyst"; topic_source := "default" |};
          {| topic_type := "ReportGenerator"; topic_source := "default" |}]
    /\ stdout w = [(nl ++ "Final Report for " ++ company ++ ":" ++ nl
                    ++ py_str (CreateResult.content r3))%string]
    /\ errlog w = []
    /\ heap w !! fresh (dom h) = Some d
    /\ dict_get d "collected" = Some (PyStr collected)
    /\ dict_get d "analysis" = Some (PyStr analysis)
    /\ (forall k, k <> "collected" -> k <> "analysis" -> dict_get d k = dict_get data k).
Proof.
  intros Hfuel H1 Ht1 H2 Ht2 H3. rewrite run_sequential_unfold. cbv zeta.
  match goal with |- context [stop_when_idle fuel _ ?x] => set (w0 := x) end.
  destruct (sequential_trace company data (fresh (dom h)) fuel w0 Hfuel eq_refl
              (lookup_insert_eq _ _ _))
    as (w & new & Hrun & _ & Hp & _ & _ & Hcase).
  cbv zeta in Hcase. cbn [svc w0] in Hcase.
  rewrite H1, Ht1, H2, Ht2, H3 in Hcase. cbn [fst snd] in Hcase.
  destruct Hcase as (Hs & Hc & Ht & Hh & Ho & He).
  exists w, (dict_set (dict_set data "collected" (PyStr collected)) "analysis"
               (PyStr analysis)).
  split; [exact Hrun|]. rewrite Hs, Hc, Hp, map_app, Ht, Ho, He.
  repeat split; try reflexivity.
  - exact Hh.
  - rewrite dict_get_set_ne by discriminate. apply dict_get_set_eq.
  - apply dict_get_set_eq.
  - intros k Hk1 Hk2. rewrite !dict_get_set_ne by congruence. reflexivity.
Qed.

(** X13.  With a service that answers with text or fails, every run of the
    pipeline ends after one to three calls with exactly one outcome, the
    printed report or one logged exception; a logged exception is always
    one the service raised (the stages' own lookups of "collected" and
    "analysis" never fail in a run), and no dict other than the task's is
    touched. *)
Theorem pipeline_one_outcome (company : string) (data : pydict) (fuel : nat)
    (s : CS) (h : gmap loc pydict) :
  (3 <= fuel)%nat ->
  (forall s0 p r, snd (client s0 p) = Ok r -> exists text, CreateResult.content r = PyStr text) ->
  exists w,
    run_sequential client company data fuel s h = Some w
    /\ queue w = []
    /\ (1 <= length (calls w) <= 3)%nat
    /\ (length (stdout w) + length (errlog w) = 1)%nat
    /\ (forall x, x ∈ errlog w -> exists s0 p, snd (client s0 p) = Raise x)
    /\ (forall l', l' <> fresh (dom h) -> heap w !! l' = h !! l').
Proof.
  intros Hfuel _. rewrite run_sequential_unfold. cbv zeta.
  match goal with |- context [stop_when_idle fuel _ ?x] => set (w0 := x) end.
  destruct (sequential_trace company data (fresh (dom h)) fuel w0 Hfuel eq_refl
              (lookup_insert_eq _ _ _))
    as (w & new & Hrun & Hq & _ & _ & Hframe & Hcase).
  exists w. split; [exact Hrun|]. split; [exact Hq|].
  cbv zeta in Hcase. cbn [svc w0] in Hcase.
  assert (Hothers : forall l', l' <> fresh (dom h) -> heap w !! l' = h !! l').
  { intros l' Hl'. rewrite (Hframe l' Hl'). cbn [heap w0].
    apply lookup_insert_ne. congruence. }
  destruct (client s (DataCollector_prompt data)) as [s1 [r1|x1]] eqn:H1.
  - destruct (client s1 (FundamentalAnalyst_prompt (CreateResult.content r1)))
      as [s2 [r2|x2]] eqn:H2.
    + destruct Hcase as (_ & Hc & _ & _ & Hcase).
      destruct (client s2 (ReportGenerator_prompt (CreateResult.content r2)))
        as [s3 [r3|x3]] eqn:H3; destruct Hcase as (Ho & He);
        rewrite Hc, Ho, He; (split; [simpl; lia|]); (split; [reflexivity|]);
        (split; [|exact Hothers]); intros x Hx.
      * inversion Hx.
      * apply list_elem_of_singleton in Hx. subst x.
        exists s2, (ReportGenerator_prompt (CreateResult.content r2)). rewrite H3.
        reflexivity.
    + destruct Hcase as (_ & Hc & _ & _ & Ho & He). rewrite Hc, Ho, He.
      split; [simpl; lia|]. split; [reflexivity|]. split; [|exact Hothers].
      intros x Hx. apply list_elem_of_singleton in Hx. subst x.
      exists s1, (FundamentalAnalyst_prompt (CreateResult.content r1)). rewrite H2.
      reflexivity.
  - destruct Hcase as (_ & Hc & _ & _ & Ho & He). rewrite Hc, Ho, He.
    split; [simpl; lia|]. split; [reflexivity|]. split; [|exact Hothers].
    intros x Hx. apply list_elem_of_singleton in Hx. subst x.
    exists s, (DataCollector_prompt data). rewrite H1. reflexivity.
Qed.

End SequentialRun.

(** ** The shape of the permitted handoff sessions (sk_handoff.py) *)

Section SkHandoffSessions.

Import SkHandoff.

Lemma hops_from_triage (n : nat) (hops : list string) :
  (length hops <= n)%nat ->
  permitted orchestration "TriageAdvisor" hops = true ->
  exists k,
    hops = back_and_forth k
    \/ hops = (back_and_forth k ++ ["EquitySpecialist"])%list
    \/ hops = (back_and_forth k ++ ["HumanAdvisor"])%list.
Proof.
  revert hops. induction n as [|n IH]; intros hops Hlen Hp.
  - destruct hops; [exists 0%nat; left; reflexivity | simpl in Hlen; lia].
  - destruct hops as [|first rest]; [exists 0%nat; left; reflexivity|].
    cbn [permitted] in Hp. apply andb_true_iff in Hp as [Hfirst Hrest].
    unfold may_hand_off in Hfirst. apply bool_decide_eq_true in Hfirst.
    change (targets (handoffs_of orchestration) "TriageAdvisor")
      with ["EquitySpecialist"; "HumanAdvisor"] in Hfirst.
    apply elem_of_cons in Hfirst as [->|Hfirst];
      [|apply list_elem_of_singleton in Hfirst; subst first].
    + destruct rest as [|second rest]; [exists 0%nat; right; left; reflexivity|].
      cbn [permitted] in Hrest. apply andb_true_iff in Hrest as [Hsecond Hrest].
      unfold may_hand_off in Hsecond. apply bool_decide_eq_true in Hsecond.
      change (targets (handoffs_of orchestration) "EquitySpecialist")
        with ["TriageAdvisor"] in Hsecond.
      apply list_elem_of_singleton in Hsecond. subst second.
      destruct (IH rest) as [k Hk]; [simpl in Hlen; lia | exact Hrest |].
      exists (S k). cbn [back_and_forth app].
      destruct Hk as [->| [->| ->]]; [left | right; left | right; right]; reflexivity.
    + destruct rest as [|second rest]; [exists 0%nat; right; right; reflexivity|].
      cbn [permitted] in Hrest. apply andb_true_iff in Hrest as [Hsecond _].
      unfold may_hand_off in Hsecond. apply bool_decide_eq_true in Hsecond.
      change (targets (handoffs_of orchestration) "HumanAdvisor") with (@nil string)
        in Hsecond.
      inversion Hsecond.
Qed.

Lemma permitted_after_back_and_forth (k : nat) (tail : list string) :
  permitted orchestration "TriageAdvisor" (back_and_forth k ++ tail)
  = permitted orchestration "TriageAdvisor" tail.
Proof.
  induction k as [|k IH]; [reflexivity|].
  cbn [back_and_forth app permitted].
  change (may_hand_off orchestration "TriageAdvisor" "EquitySpecialist") with true.
  change (may_hand_off orchestration "EquitySpecialist" "TriageAdvisor") with true.
  exact IH.
Qed.

(** X14.  The handoff settings permit exactly the sessions in which triage
    and the equity specialist hand the conversation back and forth any
    number of times and which then stop at triage, at the equity
    specialist or at the human advisor.  In particular the equity
    specialist never hands over to the human advisor directly, and nobody
    takes over from the human advisor. *)
Theorem handoff_sessions_shape (hops : list string) :
  session orchestration hops = true
  <-> exists k,
        hops = back_and_forth k
        \/ hops = (back_and_forth k ++ ["EquitySpecialist"])%list
        \/ hops = (back_and_forth k ++ ["HumanAdvisor"])%list.
Proof.
  unfold session. change (first_agent orchestration) with "TriageAdvisor".
  split.
  - apply (hops_from_triage (length hops)). lia.
  - intros [k [->| [->| ->]]].
    + rewrite <- (app_nil_r (back_and_forth k)). rewrite permitted_after_back_and_forth.
      reflexivity.
    + rewrite permitted_after_back_and_forth. reflexivity.
    + rewrite permitted_after_back_and_forth. reflexivity.
Qed.

End SkHandoffSessions.

(** ** The further properties at concrete inputs *)

Section MoreInstances.

Import AsciiPy.

Lemma groupchat_main_ends_witness :
  (2 <= 2)%nat
  /\ exists w, AgGroupchat.main (Stub.always "noted") 2 tt = Some w /\ queue w = [].
Proof.
  split; [lia|].
  destruct (groupchat_main_ends (Stub.always "noted") 2 tt (le_n 2))
    as (w & Hrun & Hq & _).
  exists w. split; assumption.
Defined.

Lemma handoff_one_outcome_witness :
  (2 <= 3)%nat
  /\ exists w,
       AgHandoff.run_handoff Stub.failing AgHandoff.seed_request 3 tt = Some w
       /\ (length (stdout w) + length (errlog w) = 1)%nat.
Proof.
  split; [lia|].
  destruct (handoff_one_outcome Stub.failing AgHandoff.seed_request 3 tt ltac:(lia))
    as (w & Hrun & _ & _ & _ & Hone).
  exists w. split; assumption.
Defined.

Lemma handoff_triage_failure_witness :
  (2 <= 2)%nat
  /\ snd (Stub.failing tt (AgHandoff.TriageAdvisor_prompt AgHandoff.seed_request))
     = Raise (ServiceError "quota exceeded")
  /\ exists w,
       AgHandoff.run_handoff Stub.failing AgHandoff.seed_request 2 tt = Some w
       /\ stdout w = []
       /\ errlog w = [ServiceError "quota exceeded"].
Proof.
  split; [lia|]. split; [reflexivity|].
  destruct (handoff_triage_failure Stub.failing AgHandoff.seed_request 2 tt
              (ServiceError "quota exceeded") (le_n 2) eq_refl)
    as (w & Hrun & _ & _ & Ho & He).
  exists w. repeat split; assumption.
Defined.

Lemma handoff_refund_route_witness :
  let request :=
    {| AgHandoff.InvestmentRequest.company := "TechCorp";
       AgHandoff.InvestmentRequest.inquiry := "Please return my money";
       AgHandoff.InvestmentRequest.request_id := "HR-002" |} in
  (2 <= 2)%nat
  /\ str_in "invest" (str_lower (AgHandoff.InvestmentRequest.inquiry request)) = false
  /\ Stub.always "Routing." tt (AgHandoff.TriageAdvisor_prompt request)
     = (tt, Ok {| CreateResult.content := PyStr "Routing." |})
  /\ exists w,
       AgHandoff.run_handoff (Stub.always "Routing.") request 2 tt = Some w
       /\ length (calls w) = 1%nat
       /\ stdout w = ["Human Advisor handling refund (HR-002):" ++ nl ++ "Routing."].
Proof.
  intros request.
  assert (Hkey : str_in "invest"
                   (str_lower (AgHandoff.InvestmentRequest.inquiry request)) = false)
    by reflexivity.
  split; [lia|]. split; [exact Hkey|]. split; [reflexivity|].
  destruct (handoff_refund_route (Stub.always "Routing.") request 2 tt tt
              {| CreateResult.content := PyStr "Routing." |} (le_n 2) Hkey eq_refl)
    as (w & Hrun & _ & Hc & Ho & _).
  exists w. split; [exact Hrun|]. split; [rewrite Hc; reflexivity | exact Ho].
Defined.

Lemma handoff_invest_route_witness :
  (2 <= 2)%nat
  /\ str_in "invest"
       (str_lower (AgHandoff.InvestmentRequest.inquiry AgHandoff.seed_request)) = true
  /\ Stub.always "Certainly!" tt (AgHandoff.TriageAdvisor_prompt AgHandoff.seed_request)
     = (tt, Ok {| CreateResult.content := PyStr "Certainly!" |})
  /\ exists w,
       AgHandoff.run_handoff (Stub.always "Certainly!") AgHandoff.seed_request 2 tt = Some w
       /\ calls w
          = [AgHandoff.TriageAdvisor_prompt AgHandoff.seed_request;
             [AgHandoff.EquitySpecialist_system;
              UserMessage (PyStr "Certainly!") "EquitySpecialist"]].
Proof.
  assert (Hkey : str_in "invest"
                   (str_lower (AgHandoff.InvestmentRequest.inquiry AgHandoff.seed_request))
                 = true) by reflexivity.
  split; [lia|]. split; [exact Hkey|]. split; [reflexivity|].
  destruct (handoff_invest_route (Stub.always "Certainly!") AgHandoff.seed_request 2 tt tt
              {| CreateResult.content := PyStr "Certainly!" |} "Certainly!"
              (le_n 2) Hkey eq_refl eq_refl)
    as (w & Hrun & _ & Hc & _).
  exists w. split; assumption.
Defined.

Lemma handoff_ignores_company_witness :
  let other :=
    {| AgHandoff.InvestmentRequest.company := "Another Corp";
       AgHandoff.InvestmentRequest.inquiry := "I want to invest in stocks";
       AgHandoff.InvestmentRequest.request_id := "HR-001" |} in
  (2 <= 2)%nat
  /\ AgHandoff.InvestmentRequest.inquiry AgHandoff.seed_request
     = AgHandoff.InvestmentRequest.inquiry other
  /\ AgHandoff.InvestmentRequest.request_id AgHandoff.seed_request
     = AgHandoff.InvestmentRequest.request_id other
  /\ exists w w',
       AgHandoff.run_handoff Stub.echo AgHandoff.seed_request 2 tt = Some w
       /\ AgHandoff.run_handoff Stub.echo other 2 tt = Some w'
       /\ stdout w = stdout w'.
Proof.
  intros other. split; [lia|]. split; [reflexivity|]. split; [reflexivity|].
  destruct (handoff_ignores_company Stub.echo AgHandoff.seed_request other 2 tt
              (le_n 2) eq_refl eq_refl)
    as (w & w' & Hrun & Hrun' & _ & _ & Ho & _).
  exists w, w'. repeat split; assumption.
Defined.

Lemma analyze_rejects_non_text_witness :
  let self := {| agent_type := "sentiment_analyst"; agent_key := "default" |} in
  let w : World unit AgConcurrent.Msg := start tt ∅ in
  snd (Stub.tool_calls (svc w)
         (AgConcurrent.analyze_prompt AgConcurrent.SentimentAnalyst
            AgConcurrent.investment_request))
  = Ok {| CreateResult.content := PyList [] |}
  /\ (forall text, CreateResult.content {| CreateResult.content := PyList [] |} <> PyStr text)
  /\ snd (AgConcurrent.analyze Stub.tool_calls AgConcurrent.SentimentAnalyst self
            AgConcurrent.investment_request w)
     = Raise AssertionError.
Proof.
  intros self w. split; [reflexivity|].
  assert (Hnot : forall text,
             CreateResult.content {| CreateResult.content := PyList [] |} <> PyStr text)
    by (intros text; discriminate).
  split; [exact Hnot|].
  exact (proj1 (analyze_rejects_non_text Stub.tool_calls AgConcurrent.SentimentAnalyst self
                  AgConcurrent.investment_request w _ eq_refl Hnot)).
Defined.



Lemma pipeline_collector_failure_witness :
  let data := [("sector", PyStr "Renewable Energy"); ("market_cap", PyStr "$5B")] in
  (3 <= 3)%nat
  /\ snd (Stub.failing tt (AgSequential.DataCollector_prompt data))
     = Raise (ServiceError "quota exceeded")
  /\ exists w,
       AgSequential.run_sequential Stub.failing "GreenTech Solutions Inc." data 3 tt ∅
       = Some w
       /\ stdout w = []
       /\ heap w !! fresh (dom (∅ : gmap loc pydict)) = Some data.
Proof.
  intros data. split; [lia|]. split; [reflexivity|].
  destruct (pipeline_collector_failure Stub.failing "GreenTech Solutions Inc." data 3 tt ∅
              (ServiceError "quota exceeded") (le_n 3) eq_refl)
    as (w & Hrun & _ & _ & Ho & _ & Hh).
  exists w. repeat split; assumption.
Defined.

Lemma pipeline_analyst_failure_witness :
  let data := [("sector", PyStr "Renewable Energy"); ("market_cap", PyStr "$5B")] in
  (3 <= 3)%nat
  /\ Stub.once 0%nat (AgSequential.DataCollector_prompt data)
     = (1%nat, Ok {| CreateResult.content := PyStr "collected data" |})
  /\ snd (Stub.once 1%nat (AgSequential.FundamentalAnalyst_prompt (PyStr "collected data")))
     = Raise (ServiceError "timeout")
  /\ exists w d,
       AgSequential.run_sequential Stub.once "GreenTech Solutions Inc." data 3 0%nat ∅
       = Some w
       /\ heap w !! fresh (dom (∅ : gmap loc pydict)) = Some d
       /\ dict_get d "collected" = Some (PyStr "collected data")
       /\ dict_get d "analysis" = None.
Proof.
  intros data. split; [lia|]. split; [reflexivity|]. split; [reflexivity|].
  destruct (pipeline_analyst_failure Stub.once "GreenTech Solutions Inc." data 3 0%nat
              1%nat ∅ {| CreateResult.content := PyStr "collected data" |}
              "collected data" (ServiceError "timeout") (le_n 3) eq_refl eq_refl eq_refl)
    as (w & d & Hrun & _ & _ & _ & Hh & Hc & Ha).
  exists w, d. repeat split; assumption.
Defined.

Lemma pipeline_success_chain_witness :
  let data := [("sector", PyStr "Renewable Energy"); ("market_cap", PyStr "$5B")] in
  let answer := {| CreateResult.content := PyStr "ok" |} in
  (3 <= 3)%nat
  /\ Stub.always "ok" tt (AgSequential.DataCollector_prompt data) = (tt, Ok answer)
  /\ CreateResult.content answer = PyStr "ok"
  /\ Stub.always "ok" tt (AgSequential.FundamentalAnalyst_prompt (PyStr "ok"))
     = (tt, Ok answer)
  /\ Stub.always "ok" tt (AgSequential.ReportGenerator_prompt (PyStr "ok")) = (tt, Ok answer)
  /\ exists w,
       AgSequential.run_sequential (Stub.always "ok") "GreenTech Solutions Inc." data 3 tt ∅
       = Some w
       /\ stdout w = [nl ++ "Final Report for GreenTech Solutions Inc.:" ++ nl ++ "ok"].
Proof.
  intros data answer. split; [lia|]. do 4 (split; [reflexivity|]).
  destruct (pipeline_success_chain (Stub.always "ok") "GreenTech Solutions Inc." data 3
              tt tt tt tt ∅ answer answer answer "ok" "ok"
              (le_n 3) eq_refl eq_refl eq_refl eq_refl eq_refl)
    as (w & d & Hrun & _ & _ & _ & Ho & _).
  exists w. split; assumption.
Defined.

Lemma pipeline_one_outcome_witness :
  let data := [("sector", PyStr "Renewable Energy"); ("market_cap", PyStr "$5B")] in
  (3 <= 4)%nat
  /\ (forall s0 p r, snd (Stub.once s0 p) = Ok r ->
        exists text, CreateResult.content r = PyStr text)
  /\ exists w,
       AgSequential.run_sequential Stub.once "GreenTech Solutions Inc." data 4 0%nat ∅
       = Some w
       /\ (length (stdout w) + length (errlog w) = 1)%nat.
Proof.
  intros data. split; [lia|].
  assert (Htext : forall s0 p r, snd (Stub.once s0 p) = Ok r ->
                    exists text, CreateResult.content r = PyStr text).
  { intros [|n] p r Hr; [|discriminate Hr]. injection Hr as <-. eexists. reflexivity. }
  split; [exact Htext|].
  destruct (pipeline_one_outcome Stub.once "GreenTech Solutions Inc." data 4 0%nat ∅
              ltac:(lia) Htext)
    as (w & Hrun & _ & _ & Hone & _).
  exists w. split; assumption.
Defined.

End MoreInstances.
